(** * count_po: the aggregation engine of transaction_utils.py

    A shallow embedding of the purchase-order analysis functions
    ([count_transactions], [count_unique_po_by_range], [get_po_breakdown],
    [get_unique_po_statistics], [get_transaction_dataframe],
    [get_range_statistics]) and the properties stated about them.

    Modelling conventions.
    - An Excel workbook is the list of its sheets; every function reads
      the first one.
    - A sheet is a pandas DataFrame: the list of its column names and the
      list of its rows.  A cell of a text column is [option string]
      ([None] is a missing value).  The [jumlah] cell is kept as it is
      after [pd.to_numeric(..., errors='coerce')]: [Some q] for a number,
      [None] for NaN (an empty or unparsable cell).
    - Amounts are rationals: every finite int64 or float64 value is one,
      and the comparisons of the source are exact on them.
    - Sums and quotients are exact.  The program adds an int64 column in
      int64 (the sum wraps beyond 2^63) and a float64 column in float64
      (the sum is rounded), and it rounds percentages on the float64
      product.  The model agrees with the program wherever these sums are
      exact, as they are on whole non-negative amounts that add up to at
      most 2^53; a statement that reads a sum or an average either assumes
      such amounts or says that it is about exact amounts.
    - [sort_values] runs numpy's default quicksort, which is not stable:
      the program fixes no order among rows of equal total.  The model
      picks one such order; no statement depends on which.
    - A raised exception is a value of [exn]; the functions return
      [result]. *)

From Stdlib Require Import ZArith QArith Qround List String Ascii Bool Arith Lia Lqa.
From Stdlib Require Import Permutation Sorted.
Import ListNotations.

Local Open Scope string_scope.
Local Open Scope list_scope.

(** ** Exceptions and results *)

Inductive exn : Type :=
| ValueError (msg : string)
| KeyError (key : string)
| IndexError (msg : string).

Inductive result (A : Type) : Type :=
| Ok (a : A)
| Raise (e : exn).

Arguments Ok {A} a.
Arguments Raise {A} e.

Definition bind {A B : Type} (m : result A) (k : A -> result B) : result B :=
  match m with
  | Ok a => k a
  | Raise e => Raise e
  end.

Notation "x <- m ;; k" := (bind m (fun x => k))
  (at level 61, m at next level, right associativity).

(** ** Data model *)

Record Row : Type := mkRow {
  vendor_name : option string;
  jumlah : option Q;
  po_status_approval : option string;
  po_code : option string
}.

Record DataFrame : Type := mkDF {
  columns : list string;
  rows : list Row
}.

Definition ExcelFile : Type := list DataFrame.

Definition total_column : string := "jumlah".
Definition vendor_column : string := "vendor_name".
Definition status_column : string := "po_status_approval".
Definition po_code_column : string := "po_code".

(** [c in df.columns] *)
Definition has_column (c : string) (df : DataFrame) : bool :=
  existsb (String.eqb c) (columns df).

(** [', '.join(df.columns)] *)
Definition join_columns (df : DataFrame) : string :=
  String.concat ", " (columns df).

(** Truthiness of the optional [vendor] argument in [if vendor:]:
    [None] and the empty string are falsy. *)
Definition truthy (vendor : option string) : bool :=
  match vendor with
  | Some v => negb (String.eqb v EmptyString)
  | None => false
  end.

(** [cell == s] on a text column: a missing cell equals nothing. *)
Definition cell_eqb (cell : option string) (s : string) : bool :=
  match cell with
  | Some c => String.eqb c s
  | None => false
  end.

Definition notna {A : Type} (cell : option A) : bool :=
  match cell with Some _ => true | None => false end.

(** ** Row filter steps, as each function spells them out *)

(** [df.dropna(subset=[total_column])] *)
Definition dropna_jumlah (l : list Row) : list Row :=
  filter (fun r => notna (jumlah r)) l.

(** [df.dropna(subset=[total_column, po_code_column])] *)
Definition dropna_jumlah_po (l : list Row) : list Row :=
  filter (fun r => notna (jumlah r) && notna (po_code r)) l.

(** [if status_column in df.columns: df = df[df[status_column] == 'Approved']] *)
Definition filter_approved (df : DataFrame) (l : list Row) : list Row :=
  if has_column status_column df
  then filter (fun r => cell_eqb (po_status_approval r) "Approved") l
  else l.

(** [df[df[vendor_column] == vendor]] *)
Definition filter_vendor (v : string) (l : list Row) : list Row :=
  filter (fun r => cell_eqb (vendor_name r) v) l.

(** ** Range counting *)

(** The [ranges] list of both counters. *)
Definition ranges : list (Q * Q) :=
  [ (0, 100000);
    (100001, 500000);
    (500001, 1000000);
    (1000001, 5000000);
    (5000001, 10000000);
    (10000001, 50000000) ]%Q.

(** [(x >= min_val) & (x <= max_val)]; a NaN cell compares false. *)
Definition in_range (min_val max_val : Q) (x : option Q) : bool :=
  match x with
  | Some q => Qle_bool min_val q && Qle_bool q max_val
  | None => false
  end.

(** [x > 50000000] *)
Definition above_50M (x : option Q) : bool :=
  match x with
  | Some q => negb (Qle_bool q 50000000)
  | None => false
  end.

Section RangeCounts.
Context {A : Type} (value : A -> option Q).

(** [len(df[mask])] *)
Definition count_where (mask : option Q -> bool) (l : list A) : nat :=
  List.length (filter (fun r => mask (value r)) l).

(** The loop over [ranges] followed by the append of [count_above_50M]. *)
Definition range_counts (l : list A) : list nat :=
  map (fun mm => count_where (in_range (fst mm) (snd mm)) l) ranges
  ++ [count_where above_50M l].
End RangeCounts.

(** [df[total_column].sum()]: NaN cells are skipped.  The sum is the exact
    one: it is the program's as long as no int64 sum wraps and no float64
    sum rounds, which whole amounts with a sum of at most 2^53 ensure. *)
Definition sum_jumlah (l : list Row) : Q :=
  fold_left (fun acc r => match jumlah r with
                          | Some q => acc + q
                          | None => acc
                          end) l 0%Q.

(** ** The seven range predicates and the labels *)

(** The seven masks in column order: six closed ranges, then [> 50000000]. *)
Definition range_predicates : list (option Q -> bool) :=
  map (fun mm => in_range (fst mm) (snd mm)) ranges ++ [above_50M].

(** Indices of the range predicates that an amount satisfies. *)
Definition predicate_bins (q : Q) : list nat :=
  map fst
      (filter (fun ip => snd ip (Some q))
              (combine (seq 0 (List.length range_predicates)) range_predicates)).

Definition ranges_labels : list string :=
  [ "0 - 100 Ribu";
    "100 Ribu - 500 Ribu";
    "500 Ribu - 1 Juta";
    "1 Juta - 5 Juta";
    "5 Juta - 10 Juta";
    "10 Juta - 50 Juta";
    "Di atas 50 Juta" ].

(** [get_range], local to [get_po_breakdown]. *)
Definition get_range (value : Q) : string :=
  if Qle_bool value 100000 then "0 - 100 Ribu"
  else if Qle_bool value 500000 then "100 Ribu - 500 Ribu"
  else if Qle_bool value 1000000 then "500 Ribu - 1 Juta"
  else if Qle_bool value 5000000 then "1 Juta - 5 Juta"
  else if Qle_bool value 10000000 then "5 Juta - 10 Juta"
  else if Qle_bool value 50000000 then "10 Juta - 50 Juta"
  else "Di atas 50 Juta".

(** Index of a label in [ranges_labels]. *)
Fixpoint label_index_from (i : nat) (labels : list string) (s : string) : option nat :=
  match labels with
  | [] => None
  | l :: tl => if String.eqb l s then Some i else label_index_from (S i) tl s
  end.

Definition get_range_bin (value : Q) : option nat :=
  label_index_from 0 ranges_labels (get_range value).

(** ** Reading the workbook *)

(** [count_transactions] checks [sheet_names] before it reads the first sheet. *)
Definition read_first_sheet_checked (file : ExcelFile) : result DataFrame :=
  match file with
  | [] => Raise (ValueError "Tidak ada sheet yang ditemukan dalam file Excel.")
  | df :: _ => Ok df
  end.

(** The other functions index [xls.sheet_names[0]] directly. *)
Definition read_first_sheet (file : ExcelFile) : result DataFrame :=
  match file with
  | [] => Raise (IndexError "list index out of range")
  | df :: _ => Ok df
  end.

(** The vendor that [if vendor:] lets through, if any. *)
Definition vendor_given (vendor : option string) : option string :=
  if truthy vendor then vendor else None.

(** ** count_transactions *)

Definition count_transactions (file : ExcelFile) (vendor : option string)
  : result (nat * Q * list nat) :=
  df <- read_first_sheet_checked file ;;
  if negb (has_column total_column df) then
    Raise (ValueError ("Kolom '" ++ total_column
                       ++ "' tidak ditemukan. Kolom yang tersedia: "
                       ++ join_columns df))
  else if negb (has_column vendor_column df) then
    Raise (ValueError ("Kolom '" ++ vendor_column
                       ++ "' tidak ditemukan. Kolom yang tersedia: "
                       ++ join_columns df))
  else
    let l := filter_approved df (dropna_jumlah (rows df)) in
    l <- match vendor_given vendor with
         | Some v =>
             let l' := filter_vendor v l in
             match l' with
             | [] => Raise (ValueError
                       ("Tidak ada transaksi yang ditemukan untuk vendor: " ++ v))
             | _ :: _ => Ok l'
             end
         | None => Ok l
         end ;;
    let total_transactions := List.length l in
    let total_amount := sum_jumlah l in
    Ok (total_transactions, total_amount, range_counts jumlah l).

(** ** Grouping by po_code *)

(** [groupby] gathers the rows of each key, keys in ascending order
    (pandas' default [sort=True]), rows of a group in frame order. *)
Fixpoint group_insert (k : string) (r : Row) (groups : list (string * list Row))
  : list (string * list Row) :=
  match groups with
  | [] => [(k, [r])]
  | (k', g) :: tl =>
      match String.compare k k' with
      | Eq => (k', g ++ [r]) :: tl
      | Lt => (k, [r]) :: groups
      | Gt => (k', g) :: group_insert k r tl
      end
  end.

Definition groupby_po_code (l : list Row) : list (string * list Row) :=
  fold_left (fun groups r =>
               match po_code r with
               | Some k => group_insert k r groups
               | None => groups
               end) l [].

(** The PO-level filter shared by [count_unique_po_by_range] and
    [get_po_breakdown]: validation, cleaning, status filter, vendor filter
    (no empty-result check; [vendor_column] is not validated, so indexing it
    raises [KeyError] when it is absent). *)
Definition po_filtered_rows (file : ExcelFile) (vendor : option string)
  : result (list Row) :=
  df <- read_first_sheet file ;;
  if negb (has_column total_column df) then
    Raise (ValueError ("Kolom '" ++ total_column ++ "' tidak ditemukan."))
  else if negb (has_column po_code_column df) then
    Raise (ValueError ("Kolom '" ++ po_code_column ++ "' tidak ditemukan."))
  else
    let l := filter_approved df (dropna_jumlah_po (rows df)) in
    match vendor_given vendor with
    | Some v =>
        if has_column vendor_column df then Ok (filter_vendor v l)
        else Raise (KeyError vendor_column)
    | None => Ok l
    end.

(** ** count_unique_po_by_range *)

(** [df.groupby(po_code_column)[total_column].sum().reset_index()] *)
Definition df_po_of (l : list Row) : list (string * Q) :=
  map (fun kg => (fst kg, sum_jumlah (snd kg))) (groupby_po_code l).

Definition count_unique_po_by_range (file : ExcelFile) (vendor : option string)
  : result (nat * list nat) :=
  l <- po_filtered_rows file vendor ;;
  let df_po := df_po_of l in
  let total_unique_po := List.length df_po in
  Ok (total_unique_po, range_counts (fun kv => Some (snd kv)) df_po).

(** ** get_po_breakdown *)

Record BreakdownRow : Type := mkBreakdown {
  PO_Code : string;
  Jumlah_Transaksi : nat;
  Total_Nilai : Q;
  Rentang : string
}.

(** [groupby(...).agg({total_column: ['sum', 'count']})] with the
    [Rentang] column added by [get_range]. *)
Definition po_summary_of (l : list Row) : list BreakdownRow :=
  map (fun kg =>
         let total := sum_jumlah (snd kg) in
         mkBreakdown (fst kg)
                     (List.length (filter (fun r => notna (jumlah r)) (snd kg)))
                     total
                     (get_range total))
      (groupby_po_code l).

(** [sort_values('Total Nilai', ascending=False)].  pandas sorts a
    descending key by reversing the frame, arg-sorting ascending and
    reversing the result.  The arg-sort is numpy's default quicksort, which
    is not stable, so the source fixes the output only up to the order of
    rows with equal totals: it is some descending rearrangement of the
    input.  The insertion sort below is one such rearrangement; where it
    puts rows of equal total is a choice of the model, and the statements
    about the table use only that the output is descending and a
    permutation of the input. *)
Fixpoint insert_asc (x : BreakdownRow) (l : list BreakdownRow) : list BreakdownRow :=
  match l with
  | [] => [x]
  | y :: tl =>
      if Qle_bool (Total_Nilai x) (Total_Nilai y) then x :: l
      else y :: insert_asc x tl
  end.

Definition sort_asc (l : list BreakdownRow) : list BreakdownRow :=
  fold_right insert_asc [] l.

Definition sort_values_desc (l : list BreakdownRow) : list BreakdownRow :=
  rev (sort_asc (rev l)).

Definition get_po_breakdown (file : ExcelFile) (vendor : option string)
  : result (list BreakdownRow) :=
  l <- po_filtered_rows file vendor ;;
  Ok (sort_values_desc (po_summary_of l)).

(** ** get_transaction_dataframe *)

(** No validation: [df[total_column]] raises [KeyError] when the column is
    absent, and so does [df[vendor_column]] when a vendor is given. *)
Definition get_transaction_dataframe (file : ExcelFile) (vendor : option string)
  : result DataFrame :=
  df <- read_first_sheet file ;;
  if negb (has_column total_column df) then Raise (KeyError total_column)
  else
    let l := filter_approved df (dropna_jumlah (rows df)) in
    match vendor_given vendor with
    | Some v =>
        if has_column vendor_column df
        then Ok (mkDF (columns df) (filter_vendor v l))
        else Raise (KeyError vendor_column)
    | None => Ok (mkDF (columns df) l)
    end.

(** ** Statistics tables *)

(** A cell of the float column [Persentase]. *)
Inductive FloatCell : Type :=
| Num (q : Q)
| NaN
| Inf.

(** [count / total] of an integer Series by a Python int: pandas raises
    nothing on a zero divisor, it yields NaN for 0/0 and inf for n/0. *)
Definition series_div (count total : nat) : FloatCell :=
  if Nat.eqb total 0 then
    if Nat.eqb count 0 then NaN else Inf
  else Num (inject_Z (Z.of_nat count) / inject_Z (Z.of_nat total)).

(** Round half to even, to the nearest integer. *)
Definition round_half_even (x : Q) : Z :=
  let f := Qfloor x in
  match ((x - inject_Z f) ?= (1 # 2))%Q with
  | Lt => f
  | Gt => (f + 1)%Z
  | Eq => if Z.even f then f else (f + 1)%Z
  end.

(** [.round(2)] on a number, taken on the exact value.  The program rounds
    the float64 product [count / total * 100], which can fall on the other
    side of a half (23 of 160 is 14.375: 14.38 here, 14.37 in float64), so
    the last digit of a percentage is not the program's in every case; the
    statements about percentages use the bounds of a rounded value only. *)
Definition round2 (x : Q) : Q :=
  inject_Z (round_half_even (x * 100)) / 100.

(** [(series / total * 100).round(2)], cell by cell. *)
Definition percent_cell (count total : nat) : FloatCell :=
  match series_div count total with
  | Num q => Num (round2 (q * 100))
  | NaN => NaN
  | Inf => Inf
  end.

Record StatsRow : Type := mkStats {
  stat_Rentang : string;
  stat_Jumlah : nat;
  stat_Persentase : FloatCell
}.

Definition get_range_statistics (file : ExcelFile) (vendor : option string)
  : result (list StatsRow) :=
  counts <- count_transactions file vendor ;;
  let '(total, _, bins) := counts in
  Ok (map (fun lc => mkStats (fst lc) (snd lc) (percent_cell (snd lc) total))
          (combine ranges_labels bins)).

Definition get_unique_po_statistics (file : ExcelFile) (vendor : option string)
  : result (list StatsRow) :=
  counts <- count_unique_po_by_range file vendor ;;
  let '(total, bins) := counts in
  Ok (map (fun lc => mkStats (fst lc) (snd lc)
                       (if Nat.ltb 0 total then percent_cell (snd lc) total
                        else Num 0))
          (combine ranges_labels bins)).

(** ** Notions used to state the properties *)

(** An amount is covered when some range predicate holds of it. *)
Definition covered (x : option Q) : bool :=
  existsb (fun p => p x) range_predicates.

(** A non-negative whole amount (rupiah without a fraction). *)
Definition nonneg_integer (x : option Q) : Prop :=
  exists z : Z, (0 <= z)%Z /\ x = Some (inject_Z z).

(** One more row counted in bin [i]. *)
Fixpoint count_in_bin (i : nat) (counts : list nat) : list nat :=
  match counts, i with
  | [], _ => []
  | c :: tl, O => S c :: tl
  | c :: tl, S j => c :: count_in_bin j tl
  end.

(** The rows [count_transactions] counts when it succeeds. *)
Definition transaction_rows (df : DataFrame) (vendor : option string) : list Row :=
  let l := filter_approved df (dropna_jumlah (rows df)) in
  match vendor_given vendor with
  | Some v => filter_vendor v l
  | None => l
  end.

(** The rows [get_po_breakdown] groups when it succeeds are those of
    [po_filtered_rows]; its table is ordered when every row's total is at
    least the total of every later row. *)
Definition descending_by_total : list BreakdownRow -> Prop :=
  StronglySorted (fun a b => (Total_Nilai b <= Total_Nilai a)%Q).

Definition ascending_by_total : list BreakdownRow -> Prop :=
  StronglySorted (fun a b => (Total_Nilai a <= Total_Nilai b)%Q).

(** Keys strictly ascending in Python's string order. *)
Definition keys_ascending {B : Type} (groups : list (string * B)) : Prop :=
  StronglySorted (fun a b => String.compare (fst a) (fst b) = Lt) groups.

(** [sub in s] on strings. *)
Fixpoint contains (sub s : string) : bool :=
  String.prefix sub s
  || match s with
     | EmptyString => false
     | String _ s' => contains sub s'
     end.

(** The first required column a sheet lacks, in the order the checks run. *)
Definition first_missing (required : list string) (df : DataFrame) : option string :=
  find (fun c => negb (has_column c df)) required.

(** Position in the sheet of the first row that carries a PO code. *)
Fixpoint first_seen (k : string) (l : list Row) : nat :=
  match l with
  | [] => 0
  | r :: tl => if cell_eqb (po_code r) k then 0 else S (first_seen k tl)
  end.

(** A table keeps first-seen order among ties when, of two rows with equal
    totals, the one placed first is the one whose PO code the sheet shows
    first. *)
Fixpoint ties_first_seen (l : list Row) (table : list BreakdownRow) : bool :=
  match table with
  | [] => true
  | x :: tl =>
      forallb (fun y =>
                 negb (Qeq_bool (Total_Nilai x) (Total_Nilai y))
                 || Nat.ltb (first_seen (PO_Code x) l) (first_seen (PO_Code y) l))
              tl
      && ties_first_seen l tl
  end.

(** ** Example sheets *)

Definition all_columns : list string :=
  ["vendor_name"; "jumlah"; "po_status_approval"; "po_code"].

Definition approved (vendor po : string) (amount : Q) : Row :=
  mkRow (Some vendor) (Some amount) (Some "Approved") (Some po).

(** Two approved rows of one PO and one of another, all of vendor X. *)
Definition two_po_sheet : DataFrame :=
  mkDF all_columns
       [ approved "X" "PO1" 60000; approved "X" "PO1" 50000;
         approved "X" "PO2" 200000 ].

(** One approved row with a negative amount (a credit note). *)
Definition credit_note_sheet : DataFrame :=
  mkDF all_columns [ approved "X" "PO1" (-5000) ].

(** One approved row whose amount lies between two ranges. *)
Definition fraction_sheet : DataFrame :=
  mkDF all_columns [ approved "X" "PO1" 100000.5 ].

(** Four approved rows, one PO each, with the amounts on either side of
    the first and of the last boundary. *)
Definition boundary_sheet : DataFrame :=
  mkDF all_columns
       [ approved "X" "PO1" 100000; approved "X" "PO2" 100001;
         approved "X" "PO3" 50000000; approved "X" "PO4" 50000001 ].

(** A sheet none of whose rows is approved. *)
Definition unapproved_sheet : DataFrame :=
  mkDF all_columns
       [ mkRow (Some "X") (Some 60000%Q) (Some "Not Yet Approved") (Some "PO1");
         mkRow (Some "X") (Some 70000%Q) (Some "Rejected") (Some "PO2") ].

(** Two POs of equal total; the sheet shows PO2 first. *)
Definition tie_sheet : DataFrame :=
  mkDF all_columns [ approved "X" "PO2" 100; approved "X" "PO1" 100 ].

(** The same two rows in the other order. *)
Definition tie_sheet_swapped : DataFrame :=
  mkDF all_columns [ approved "X" "PO1" 100; approved "X" "PO2" 100 ].

(** Sheets that lack a required column. *)
Definition no_jumlah_sheet : DataFrame :=
  mkDF ["vendor_name"; "po_code"] [ mkRow (Some "X") None None (Some "PO1") ].

Definition no_po_code_sheet : DataFrame :=
  mkDF ["vendor_name"; "jumlah"] [ mkRow (Some "X") (Some 60000%Q) None None ].

Definition no_vendor_sheet : DataFrame :=
  mkDF ["jumlah"; "po_code"] [ mkRow None (Some 60000%Q) None (Some "PO1") ].

(** ** Further notions *)

(** The PO codes a frame shows, each once. *)
Definition po_codes (l : list Row) : list string :=
  nodup string_dec
        (flat_map (fun r => match po_code r with
                            | Some k => [k]
                            | None => []
                            end) l).

(** The row test of the export, in one predicate: a numeric [jumlah], the
    status 'Approved' when the sheet has a status column, and the vendor
    when one is given. *)
Definition kept_by_export (df : DataFrame) (vendor : option string) (r : Row) : bool :=
  notna (jumlah r)
  && (negb (has_column status_column df)
      || cell_eqb (po_status_approval r) "Approved")
  && match vendor_given vendor with
     | Some v => cell_eqb (vendor_name r) v
     | None => true
     end.

(** The largest sum that int64 and float64 both hold exactly, 2^53. *)
Definition max_exact_sum : Q := 9007199254740992.

(** [po_breakdown_df['Jumlah Transaksi'].sum()] and
    [po_breakdown_df['Total Nilai'].sum()], the TOTAL row of the
    breakdown sheet of [create_excel_simple]. *)
Definition sum_Jumlah_Transaksi (table : list BreakdownRow) : nat :=
  list_sum (map Jumlah_Transaksi table).

Definition sum_Total_Nilai (table : list BreakdownRow) : Q :=
  fold_left Qplus (map Total_Nilai table) 0%Q.

(** A percentage cell that holds a number between 0 and 100. *)
Definition percentage_ok (c : FloatCell) : Prop :=
  exists q : Q, c = Num q /\ (0 <= q)%Q /\ (q <= 100)%Q.

(** app.py, the insight boxes: [sum(counts[2:4])], [sum(counts[4:6])],
    [sum(counts[6:8])] and [counts[8]] of the 9-tuple of
    [count_transactions], here on its seven counts. *)
Definition insight_counts (bins : list nat) : nat * nat * nat * nat :=
  (list_sum (firstn 2 bins),
   list_sum (firstn 2 (skipn 2 bins)),
   list_sum (firstn 2 (skipn 4 bins)),
   nth 6 bins 0%nat).

(** app.py and excel_exporter.py, the key metrics:
    [counts[1] / counts[0] if counts[0] > 0 else 0]. *)
Definition average_transaction (total : nat) (amount : Q) : Q :=
  if Nat.ltb 0 total then (amount / inject_Z (Z.of_nat total))%Q else 0%Q.

(** [df['jumlah'].max()] and [df['jumlah'].min()]: NaN cells are
    skipped, and a column without a number gives NaN ([None]). *)
Definition jumlah_max (l : list Row) : option Q :=
  fold_left (fun acc r =>
               match jumlah r, acc with
               | Some q, Some m => Some (if Qle_bool m q then q else m)
               | Some q, None => Some q
               | None, _ => acc
               end) l None.

Definition jumlah_min (l : list Row) : option Q :=
  fold_left (fun acc r =>
               match jumlah r, acc with
               | Some q, Some m => Some (if Qle_bool q m then q else m)
               | Some q, None => Some q
               | None, _ => acc
               end) l None.

(** ** A further example sheet *)

(** A sheet that shows the same transaction twice, with a row without an
    amount, a row of another vendor and a rejected row in between. *)
Definition mixed_sheet : DataFrame :=
  mkDF all_columns
       [ approved "X" "PO1" 60000;
         mkRow (Some "X") None (Some "Approved") (Some "PO1");
         approved "Y" "PO2" 70000;
         approved "X" "PO1" 60000;
         mkRow (Some "X") (Some 5%Q) (Some "Rejected") (Some "PO3") ].

(** * Properties *)

(** ** Comparisons on rationals *)

Lemma Qle_bool_false_iff (x y : Q) : Qle_bool x y = false <-> (y < x)%Q.
Proof.
  rewrite <- not_true_iff_false, Qle_bool_iff. split; intro H.
  - apply Qnot_le_lt; exact H.
  - apply Qlt_not_le; exact H.
Qed.

Lemma Qle_bool_integers (a b : Z) : Qle_bool (a # 1) (b # 1) = (a <=? b)%Z.
Proof. unfold Qle_bool; simpl. rewrite !Z.mul_1_r. reflexivity. Qed.

(** Case analysis on every comparison of the goal, dropping the cases the
    order of the rationals excludes. *)
Ltac qcases :=
  repeat match goal with
  | |- context [Qle_bool ?a ?b] =>
      let E := fresh "E" in
      destruct (Qle_bool a b) eqn:E;
      [ apply Qle_bool_iff in E | apply Qle_bool_false_iff in E ];
      try (exfalso; lra)
  end.

Ltac zcases :=
  repeat match goal with
  | |- context [Z.leb ?a ?b] => destruct (Z.leb_spec a b); try lia
  end.

(** ** The range predicates are pairwise exclusive *)

Section CountsSum.
Context {A : Type} (value : A -> option Q).

(** The seven counts add up to the number of covered rows: no row is
    counted twice, and the rows counted nowhere are the uncovered ones. *)
Lemma range_counts_sum (l : list A) :
  list_sum (range_counts value l) = count_where value covered l.
Proof.
  unfold range_counts, count_where, covered, range_predicates, ranges.
  induction l as [|r l IH]; [reflexivity|].
  simpl in *. unfold in_range, above_50M in *.
  destruct (value r) as [q|]; simpl; [|exact IH].
  qcases; simpl; lia.
Qed.

Lemma count_where_all (p : option Q -> bool) (l : list A) :
  (forall r, In r l -> p (value r) = true) ->
  count_where value p l = List.length l.
Proof.
  unfold count_where. induction l as [|r l IH]; intro H; [reflexivity|].
  simpl. rewrite (H r (or_introl eq_refl)). simpl. f_equal.
  apply IH. intros r' Hr'. apply H. right; exact Hr'.
Qed.

Lemma count_where_le (p : option Q -> bool) (l : list A) :
  (count_where value p l <= List.length l)%nat.
Proof. unfold count_where. apply filter_length_le. Qed.
End CountsSum.

Lemma covered_nonneg_integer (x : option Q) : nonneg_integer x -> covered x = true.
Proof.
  intros [z [Hz ->]].
  unfold covered, range_predicates, ranges, inject_Z. simpl.
  rewrite !Qle_bool_integers. zcases; reflexivity.
Qed.

Lemma covered_negative (q : Q) : (q < 0)%Q -> covered (Some q) = false.
Proof.
  intro H. unfold covered, range_predicates, ranges. simpl. qcases; reflexivity.
Qed.

(** On whole non-negative amounts the seven counts are a partition. *)
Lemma range_counts_partition {A : Type} (value : A -> option Q) (l : list A) :
  (forall r, In r l -> nonneg_integer (value r)) ->
  list_sum (range_counts value l) = List.length l.
Proof.
  intro H. rewrite range_counts_sum. apply count_where_all.
  intros r Hr. apply covered_nonneg_integer, H, Hr.
Qed.

(** A row adds one to the count of every bin whose predicate its amount
    satisfies, and a row without a number changes no count: the position
    of a count in [range_counts] is the index of [predicate_bins]. *)
Lemma range_counts_cons {A : Type} (value : A -> option Q) (r : A) (l : list A) :
  range_counts value (r :: l)
  = match value r with
    | Some q => fold_right count_in_bin (range_counts value l) (predicate_bins q)
    | None => range_counts value l
    end.
Proof.
  unfold range_counts, count_where, predicate_bins, range_predicates, ranges.
  simpl. destruct (value r) as [q|]; [|reflexivity].
  unfold in_range, above_50M. simpl. qcases; reflexivity.
Qed.

(** In every case the counts add up to at most the number of rows. *)
Lemma range_counts_sum_le {A : Type} (value : A -> option Q) (l : list A) :
  (list_sum (range_counts value l) <= List.length l)%nat.
Proof. rewrite range_counts_sum. apply count_where_le. Qed.

(** ** The row filter only removes rows *)

Lemma filter_approved_incl (df : DataFrame) (l : list Row) (r : Row) :
  In r (filter_approved df l) -> In r l.
Proof.
  unfold filter_approved. destruct (has_column status_column df); [|auto].
  intro H. apply filter_In in H. tauto.
Qed.

Lemma filter_approved_length (df : DataFrame) (l : list Row) :
  (List.length (filter_approved df l) <= List.length l)%nat.
Proof.
  unfold filter_approved. destruct (has_column status_column df); [|lia].
  apply filter_length_le.
Qed.

Lemma filter_vendor_incl (v : string) (l : list Row) (r : Row) :
  In r (filter_vendor v l) -> In r l.
Proof. unfold filter_vendor. intro H. apply filter_In in H. tauto. Qed.

Lemma filter_vendor_length (v : string) (l : list Row) :
  (List.length (filter_vendor v l) <= List.length l)%nat.
Proof. apply filter_length_le. Qed.

Lemma dropna_jumlah_incl (l : list Row) (r : Row) :
  In r (dropna_jumlah l) -> In r l.
Proof. unfold dropna_jumlah. intro H. apply filter_In in H. tauto. Qed.

Lemma dropna_jumlah_po_incl (l : list Row) (r : Row) :
  In r (dropna_jumlah_po l) -> In r l.
Proof. unfold dropna_jumlah_po. intro H. apply filter_In in H. tauto. Qed.

Lemma vendor_given_Some (vendor : option string) (v : string) :
  vendor_given vendor = Some v <-> vendor = Some v /\ v <> EmptyString.
Proof.
  unfold vendor_given, truthy. destruct vendor as [w|]; [|split; [discriminate|tauto]].
  destruct (String.eqb_spec w EmptyString) as [E|E]; simpl; split.
  - discriminate.
  - intros [H1 H2]. inversion H1; subst. contradiction.
  - intro H; inversion H; subst; auto.
  - tauto.
Qed.

Lemma vendor_given_None : vendor_given None = None.
Proof. reflexivity. Qed.

(** ** What a successful call of count_transactions returns *)

Lemma count_transactions_Ok_inv file vendor total amount bins :
  count_transactions file vendor = Ok (total, amount, bins) ->
  exists df rest,
    file = df :: rest /\
    has_column total_column df = true /\
    has_column vendor_column df = true /\
    total = List.length (transaction_rows df vendor) /\
    amount = sum_jumlah (transaction_rows df vendor) /\
    bins = range_counts jumlah (transaction_rows df vendor).
Proof.
  unfold count_transactions, transaction_rows.
  destruct file as [|df rest]; simpl; [discriminate|].
  destruct (has_column total_column df) eqn:Ht; simpl; [|discriminate].
  destruct (has_column vendor_column df) eqn:Hv; simpl; [|discriminate].
  intro H. exists df, rest.
  destruct (vendor_given vendor) as [v|].
  - destruct (filter_vendor v _) as [|r l'] eqn:E; simpl in H; [discriminate|].
    inversion H; subst. repeat split; assumption || reflexivity.
  - simpl in H. inversion H; subst. repeat split; assumption || reflexivity.
Qed.

Lemma transaction_rows_incl df vendor r :
  In r (transaction_rows df vendor) -> In r (rows df).
Proof.
  unfold transaction_rows. intro H.
  apply dropna_jumlah_incl, (filter_approved_incl df).
  destruct (vendor_given vendor); [apply filter_vendor_incl in H|]; exact H.
Qed.

(** Transaction level: on whole non-negative amounts the seven counts
    of a successful call add up to [total_transactions]. *)
Lemma count_transactions_partition file vendor total amount bins :
  count_transactions file vendor = Ok (total, amount, bins) ->
  (forall df r, In df file -> In r (rows df) -> jumlah r <> None ->
                nonneg_integer (jumlah r)) ->
  list_sum bins = total.
Proof.
  intros H Hint.
  apply count_transactions_Ok_inv in H.
  destruct H as (df & rest & -> & _ & _ & -> & _ & ->).
  apply range_counts_partition. intros r Hr.
  assert (Hin : In r (rows df)) by (eapply transaction_rows_incl; eauto).
  apply (Hint df r (or_introl eq_refl) Hin).
  unfold transaction_rows in Hr.
  assert (Hd : In r (dropna_jumlah (rows df))).
  { apply (filter_approved_incl df).
    destruct (vendor_given vendor); [apply filter_vendor_incl in Hr|]; exact Hr. }
  unfold dropna_jumlah in Hd. apply filter_In in Hd.
  destruct Hd as [_ Hd]. destruct (jumlah r); [discriminate|discriminate Hd].
Qed.

(** In every case the counts of a successful call stay within the total. *)
Lemma count_transactions_bins_le file vendor total amount bins :
  count_transactions file vendor = Ok (total, amount, bins) ->
  (list_sum bins <= total)%nat.
Proof.
  intro H. apply count_transactions_Ok_inv in H.
  destruct H as (df & rest & -> & _ & _ & -> & _ & ->).
  apply range_counts_sum_le.
Qed.

(** ** Grouping *)

Lemma group_insert_rows k r groups k' g' r' :
  In (k', g') (group_insert k r groups) -> In r' g' ->
  r' = r \/ exists g, In (k', g) groups /\ In r' g.
Proof.
  induction groups as [|[k0 g0] tl IH]; simpl.
  - intros [H|[]] Hr. inversion H; subst. destruct Hr as [Hr|[]]. left; auto.
  - destruct (String.compare k k0); simpl.
    + intros [H|H] Hr.
      * inversion H; subst. apply in_app_or in Hr. destruct Hr as [Hr|[Hr|[]]].
        -- right. exists g0. split; auto.
        -- left; auto.
      * right. exists g'. split; auto.
    + intros [H|[H|H]] Hr.
      * inversion H; subst. destruct Hr as [Hr|[]]. left; auto.
      * right. exists g'. split; auto.
      * right. exists g'. split; auto.
    + intros [H|H] Hr.
      * right. exists g'. split; auto.
      * destruct (IH H Hr) as [E|[g [Hg Hr']]]; [left; exact E|].
        right. exists g. split; auto.
Qed.

Lemma groupby_fold_rows l : forall acc k g r,
  In (k, g) (fold_left (fun groups r =>
                          match po_code r with
                          | Some k => group_insert k r groups
                          | None => groups
                          end) l acc) ->
  In r g ->
  In r l \/ exists g', In (k, g') acc /\ In r g'.
Proof.
  induction l as [|x l IH]; simpl; intros acc k g r H Hr.
  - right. exists g. split; auto.
  - destruct (IH _ _ _ _ H Hr) as [Hl|[g' [Hg' Hr']]]; [left; right; exact Hl|].
    destruct (po_code x) as [kx|].
    + destruct (group_insert_rows _ _ _ _ _ _ Hg' Hr') as [E|[g'' [H1 H2]]].
      * left; left; auto.
      * right. exists g''. split; auto.
    + right. exists g'. split; auto.
Qed.

(** Every row of a group is a row of the grouped frame. *)
Lemma groupby_po_code_rows l k g r :
  In (k, g) (groupby_po_code l) -> In r g -> In r l.
Proof.
  intros H Hr. destruct (groupby_fold_rows l [] k g r H Hr) as [Hl|[g' [[] _]]].
  exact Hl.
Qed.

(** ** Sums of whole amounts *)

Lemma sum_fold_nonneg_integer (g : list Row) : forall a : Z,
  (0 <= a)%Z ->
  (forall r, In r g -> jumlah r <> None -> nonneg_integer (jumlah r)) ->
  nonneg_integer
    (Some (fold_left (fun acc r => match jumlah r with
                                   | Some q => acc + q
                                   | None => acc
                                   end) g (inject_Z a))).
Proof.
  induction g as [|x g IH]; simpl; intros a Ha H.
  - exists a. split; auto.
  - destruct (jumlah x) as [q|] eqn:E.
    + destruct (H x (or_introl eq_refl)) as [z [Hz Hq]]; [rewrite E; discriminate|].
      rewrite E in Hq. inversion Hq; subst q.
      change (inject_Z a + inject_Z z) with (inject_Z (a * 1 + z * 1)).
      apply IH; [lia|]. intros r Hr. apply H. right; exact Hr.
    + apply IH; [exact Ha|]. intros r Hr. apply H. right; exact Hr.
Qed.

Lemma sum_jumlah_nonneg_integer (g : list Row) :
  (forall r, In r g -> jumlah r <> None -> nonneg_integer (jumlah r)) ->
  nonneg_integer (Some (sum_jumlah g)).
Proof. intro H. apply (sum_fold_nonneg_integer g 0%Z); [lia|exact H]. Qed.

(** ** What a successful PO-level call works on *)

Lemma po_filtered_rows_Ok_inv file vendor l :
  po_filtered_rows file vendor = Ok l ->
  exists df rest,
    file = df :: rest /\
    has_column total_column df = true /\
    has_column po_code_column df = true /\
    l = (let l0 := filter_approved df (dropna_jumlah_po (rows df)) in
         match vendor_given vendor with
         | Some v => filter_vendor v l0
         | None => l0
         end) /\
    (vendor_given vendor <> None -> has_column vendor_column df = true).
Proof.
  unfold po_filtered_rows.
  destruct file as [|df rest]; simpl; [discriminate|].
  destruct (has_column total_column df) eqn:Ht; simpl; [|discriminate].
  destruct (has_column po_code_column df) eqn:Hp; simpl; [|discriminate].
  intro H. exists df, rest.
  destruct (vendor_given vendor) as [v|].
  - destruct (has_column vendor_column df) eqn:Hv; [|discriminate].
    inversion H; subst. repeat split; auto.
  - inversion H; subst. repeat split; auto; intro C; contradiction.
Qed.

Lemma po_filtered_rows_incl file vendor l :
  po_filtered_rows file vendor = Ok l ->
  exists df rest, file = df :: rest /\ forall r, In r l -> In r (rows df).
Proof.
  intro H. apply po_filtered_rows_Ok_inv in H.
  destruct H as (df & rest & -> & _ & _ & -> & _).
  exists df, rest. split; [reflexivity|]. intros r Hr. simpl in Hr.
  apply dropna_jumlah_po_incl, (filter_approved_incl df).
  destruct (vendor_given vendor); [apply filter_vendor_incl in Hr|]; exact Hr.
Qed.

Lemma count_unique_po_by_range_Ok_inv file vendor total bins :
  count_unique_po_by_range file vendor = Ok (total, bins) ->
  exists l,
    po_filtered_rows file vendor = Ok l /\
    total = List.length (df_po_of l) /\
    bins = range_counts (fun kv => Some (snd kv)) (df_po_of l).
Proof.
  unfold count_unique_po_by_range.
  destruct (po_filtered_rows file vendor) as [l|e]; simpl; [|discriminate].
  intro H. inversion H; subst. exists l. repeat split; reflexivity.
Qed.

(** PO level: when the amounts of the sheet are whole and non-negative,
    so is every group total, and the seven counts of a successful call add
    up to [total_unique_po]. *)
Lemma count_unique_po_partition file vendor total bins :
  count_unique_po_by_range file vendor = Ok (total, bins) ->
  (forall df r, In df file -> In r (rows df) -> jumlah r <> None ->
                nonneg_integer (jumlah r)) ->
  list_sum bins = total.
Proof.
  intros H Hint.
  apply count_unique_po_by_range_Ok_inv in H. destruct H as (l & Hl & -> & ->).
  apply po_filtered_rows_incl in Hl. destruct Hl as (df & rest & -> & Hincl).
  apply range_counts_partition. intros [k s] Hks. simpl.
  unfold df_po_of in Hks. apply in_map_iff in Hks.
  destruct Hks as [[k' g] [E Hg]]. simpl in E. inversion E; subst.
  apply sum_jumlah_nonneg_integer. intros r Hr Hn.
  apply (Hint df r (or_introl eq_refl)); [|exact Hn].
  apply Hincl. eapply groupby_po_code_rows; eauto.
Qed.

Lemma count_unique_po_bins_le file vendor total bins :
  count_unique_po_by_range file vendor = Ok (total, bins) ->
  (list_sum bins <= total)%nat.
Proof.
  intro H. apply count_unique_po_by_range_Ok_inv in H.
  destruct H as (l & _ & -> & ->). apply range_counts_sum_le.
Qed.

(** ** Sorting the breakdown table *)

Lemma insert_asc_perm x l : Permutation (x :: l) (insert_asc x l).
Proof.
  induction l as [|y tl IH]; simpl; [apply Permutation_refl|].
  destruct (Qle_bool (Total_Nilai x) (Total_Nilai y)); [apply Permutation_refl|].
  eapply perm_trans; [apply perm_swap|]. apply perm_skip, IH.
Qed.

Lemma sort_asc_perm l : Permutation l (sort_asc l).
Proof.
  induction l as [|x l IH]; simpl; [constructor|].
  eapply perm_trans; [apply perm_skip, IH|]. apply insert_asc_perm.
Qed.

Lemma sort_values_desc_perm l : Permutation l (sort_values_desc l).
Proof.
  unfold sort_values_desc.
  eapply perm_trans; [apply Permutation_rev|].
  eapply perm_trans; [apply sort_asc_perm|]. apply Permutation_rev.
Qed.

Lemma insert_asc_sorted x l :
  ascending_by_total l -> ascending_by_total (insert_asc x l).
Proof.
  unfold ascending_by_total.
  induction l as [|y tl IH]; simpl; intro H.
  - constructor; constructor.
  - destruct (Qle_bool (Total_Nilai x) (Total_Nilai y)) eqn:E.
    + apply Qle_bool_iff in E. constructor; [exact H|].
      inversion H as [|? ? Htl Hall]; subst. constructor; [exact E|].
      eapply Forall_impl; [|exact Hall]. simpl. intros a Ha.
      eapply Qle_trans; eauto.
    + apply Qle_bool_false_iff in E.
      inversion H as [|? ? Htl Hall]; subst.
      constructor; [apply IH, Htl|].
      eapply Permutation_Forall; [apply insert_asc_perm|].
      constructor; [apply Qlt_le_weak, E|exact Hall].
Qed.

Lemma sort_asc_sorted l : ascending_by_total (sort_asc l).
Proof.
  induction l as [|x l IH]; simpl; [constructor|]. apply insert_asc_sorted, IH.
Qed.

Lemma StronglySorted_snoc {A : Type} (R : A -> A -> Prop) (l : list A) (a : A) :
  StronglySorted R l -> Forall (fun x => R x a) l -> StronglySorted R (l ++ [a]).
Proof.
  induction 1 as [|b m Hs IH Hall]; simpl; intro H.
  - constructor; constructor.
  - inversion H; subst. constructor; [apply IH; assumption|].
    apply Forall_app. split; [exact Hall|]. constructor; [assumption|constructor].
Qed.

Lemma ascending_rev_descending l :
  ascending_by_total l -> descending_by_total (rev l).
Proof.
  unfold ascending_by_total, descending_by_total.
  induction 1 as [|a l Hs IH Hall]; simpl; [constructor|].
  apply StronglySorted_snoc; [exact IH|].
  apply Forall_rev. exact Hall.
Qed.

Lemma sort_values_desc_sorted l : descending_by_total (sort_values_desc l).
Proof. apply ascending_rev_descending, sort_asc_sorted. Qed.

(** ** The order of the group keys *)

Lemma ascii_compare_refl (a : ascii) : Ascii.compare a a = Eq.
Proof. unfold Ascii.compare. apply N.compare_refl. Qed.

Lemma ascii_compare_lt_trans (a b c : ascii) :
  Ascii.compare a b = Lt -> Ascii.compare b c = Lt -> Ascii.compare a c = Lt.
Proof.
  unfold Ascii.compare. rewrite !N.compare_lt_iff. apply N.lt_trans.
Qed.

Lemma string_compare_refl (s : string) : String.compare s s = Eq.
Proof.
  induction s as [|a s IH]; simpl; [reflexivity|].
  rewrite ascii_compare_refl. exact IH.
Qed.

Lemma string_compare_lt_trans (s1 : string) : forall s2 s3,
  String.compare s1 s2 = Lt -> String.compare s2 s3 = Lt ->
  String.compare s1 s3 = Lt.
Proof.
  induction s1 as [|a s1 IH]; intros [|b s2] [|c s3]; simpl; try discriminate; auto.
  destruct (Ascii.compare a b) eqn:Eab; try discriminate;
    destruct (Ascii.compare b c) eqn:Ebc; try discriminate; intros H1 H2.
  - apply Ascii.compare_eq_iff in Eab, Ebc. subst.
    rewrite ascii_compare_refl. eapply IH; eauto.
  - apply Ascii.compare_eq_iff in Eab. subst. rewrite Ebc. reflexivity.
  - apply Ascii.compare_eq_iff in Ebc. subst. rewrite Eab. reflexivity.
  - rewrite (ascii_compare_lt_trans _ _ _ Eab Ebc). reflexivity.
Qed.

Lemma string_compare_gt_lt (s1 s2 : string) :
  String.compare s1 s2 = Gt -> String.compare s2 s1 = Lt.
Proof.
  intro H. rewrite String.compare_antisym, H. reflexivity.
Qed.

Lemma group_insert_keys k r groups x :
  In x (group_insert k r groups) -> fst x = k \/ exists y, In y groups /\ fst y = fst x.
Proof.
  induction groups as [|[k0 g0] tl IH]; simpl.
  - intros [H|[]]. subst. left; reflexivity.
  - destruct (String.compare k k0) eqn:E; simpl.
    + intros [H|H]; right.
      * subst. exists (k0, g0). split; auto.
      * exists x. split; auto.
    + intros [H|[H|H]].
      * subst. left; reflexivity.
      * right. exists x. split; auto.
      * right. exists x. split; auto.
    + intros [H|H].
      * right. exists x. split; auto.
      * destruct (IH H) as [Hk|[y [Hy Ey]]]; [left; exact Hk|].
        right. exists y. split; auto.
Qed.

Lemma group_insert_keys_ascending k r groups :
  keys_ascending groups -> keys_ascending (group_insert k r groups).
Proof.
  unfold keys_ascending.
  induction groups as [|[k0 g0] tl IH]; simpl; intro H.
  - constructor; constructor.
  - inversion H as [|? ? Htl Hall]; subst.
    destruct (String.compare k k0) eqn:E.
    + constructor; assumption.
    + constructor; [exact H|]. constructor; [exact E|].
      eapply Forall_impl; [|exact Hall]. simpl. intros a Ha.
      eapply string_compare_lt_trans; eauto.
    + constructor; [apply IH, Htl|].
      apply Forall_forall. intros x Hx. simpl.
      destruct (group_insert_keys _ _ _ _ Hx) as [Hk|[y [Hy Ey]]].
      * rewrite Hk. apply string_compare_gt_lt, E.
      * rewrite <- Ey. exact (proj1 (Forall_forall _ _) Hall y Hy).
Qed.

Lemma groupby_fold_keys_ascending l : forall acc,
  keys_ascending acc ->
  keys_ascending (fold_left (fun groups r =>
                               match po_code r with
                               | Some k => group_insert k r groups
                               | None => groups
                               end) l acc).
Proof.
  induction l as [|x l IH]; simpl; intros acc H; [exact H|].
  apply IH. destruct (po_code x); [apply group_insert_keys_ascending|]; exact H.
Qed.

(** [groupby] yields one group per key, keys in ascending order. *)
Lemma groupby_po_code_keys_ascending l : keys_ascending (groupby_po_code l).
Proof. apply groupby_fold_keys_ascending. constructor. Qed.

Lemma keys_ascending_NoDup {B : Type} (groups : list (string * B)) :
  keys_ascending groups -> NoDup (map fst groups).
Proof.
  unfold keys_ascending. induction 1 as [|a l Hs IH Hall]; simpl; constructor; [|exact IH].
  intro Hin. apply in_map_iff in Hin. destruct Hin as [b [Eb Hb]].
  pose proof (proj1 (Forall_forall _ _) Hall b Hb) as Hlt. simpl in Hlt.
  rewrite Eb, string_compare_refl in Hlt. discriminate.
Qed.

(** * The claims *)

(** ** Partition of the counts *)

(** C1 (the code breaks it): the seven counts do not always add up to the
    total.  On the sheet with one approved row of amount -5000,
    [count_transactions] returns a total of 1 and seven counts of 0, and
    [count_unique_po_by_range] returns 1 unique PO and seven counts of 0;
    the same happens for the amount 100000.5, which lies between the first
    two ranges.  (On whole non-negative amounts the counts do add up:
    [count_transactions_partition], [count_unique_po_partition].) *)
Theorem C1_counts_miss_rows :
  count_transactions [credit_note_sheet] None
    = Ok (1%nat, (-5000)%Q, [0; 0; 0; 0; 0; 0; 0]%nat)
  /\ count_unique_po_by_range [credit_note_sheet] None
    = Ok (1%nat, [0; 0; 0; 0; 0; 0; 0]%nat)
  /\ (exists total amount bins,
        count_transactions [fraction_sheet] None = Ok (total, amount, bins)
        /\ total = 1%nat /\ list_sum bins = 0%nat)
  /\ (exists total bins,
        count_unique_po_by_range [fraction_sheet] None = Ok (total, bins)
        /\ total = 1%nat /\ list_sum bins = 0%nat).
Proof.
  split; [vm_compute; reflexivity|].
  split; [vm_compute; reflexivity|].
  split.
  - eexists _, _, _. split; [vm_compute; reflexivity|]. split; reflexivity.
  - eexists _, _. split; [vm_compute; reflexivity|]. split; reflexivity.
Qed.

(** ** One classification policy *)

(** On whole non-negative amounts the range predicates single out one
    bin, and it is the bin whose label [get_range] returns. *)
Lemma classification_agrees_on_nonneg_integers (z : Z) :
  (0 <= z)%Z ->
  exists i, predicate_bins (inject_Z z) = [i]
            /\ get_range_bin (inject_Z z) = Some i
            /\ nth_error ranges_labels i = Some (get_range (inject_Z z)).
Proof.
  intro H.
  unfold predicate_bins, get_range_bin, get_range, range_predicates, ranges, inject_Z.
  simpl. unfold in_range, above_50M. simpl fst; simpl snd.
  rewrite !Qle_bool_integers. zcases; simpl; eauto.
Qed.

(** C2 (the code breaks it): the counters and [get_range] do not classify
    every amount alike.  The amount -5000 satisfies none of the seven range
    predicates while [get_range] labels it with bin 0; the amount 100000.5
    satisfies none while [get_range] labels it with bin 1.  On the sheet
    with the single PO of total -5000 the PO counter puts it in no bin and
    the breakdown table files it under "0 - 100 Ribu". *)
Theorem C2_counters_and_get_range_disagree :
  predicate_bins (-5000) = [] /\ get_range_bin (-5000) = Some 0%nat
  /\ predicate_bins 100000.5 = [] /\ get_range_bin 100000.5 = Some 1%nat
  /\ count_unique_po_by_range [credit_note_sheet] None
     = Ok (1%nat, [0; 0; 0; 0; 0; 0; 0]%nat)
  /\ get_po_breakdown [credit_note_sheet] None
     = Ok [mkBreakdown "PO1" 1 (-5000) "0 - 100 Ribu"].
Proof. repeat split; vm_compute; reflexivity. Qed.

(** ** Boundaries *)

(** C3: 100000 is in bin 0, 100001 in bin 1, 50000000 in bin 5 and
    50000001 in bin 6, in the two counters and in [get_range] alike.
    - The range predicates single out that bin, and [get_range] returns
      its label.
    - In the counts that [count_transactions] and
      [count_unique_po_by_range] compute ([range_counts], on rows and on
      PO totals), a row or PO with one of these amounts adds one to the
      count at that position and changes no other count.
    - On the sheet with one approved row and PO for each of the four
      amounts, [count_transactions] and [count_unique_po_by_range] return
      the counts 1, 1, 0, 0, 0, 1, 1, and [get_po_breakdown] labels the
      four POs with the labels of the bins 0, 1, 5 and 6. *)
Theorem C3_boundary_amounts :
  ((predicate_bins 100000 = [0%nat] /\ get_range_bin 100000 = Some 0%nat)
   /\ (predicate_bins 100001 = [1%nat] /\ get_range_bin 100001 = Some 1%nat)
   /\ (predicate_bins 50000000 = [5%nat] /\ get_range_bin 50000000 = Some 5%nat)
   /\ (predicate_bins 50000001 = [6%nat] /\ get_range_bin 50000001 = Some 6%nat))
  /\ (forall (A : Type) (value : A -> option Q) (r : A) (l : list A),
        (value r = Some 100000%Q ->
         range_counts value (r :: l) = count_in_bin 0 (range_counts value l))
        /\ (value r = Some 100001%Q ->
            range_counts value (r :: l) = count_in_bin 1 (range_counts value l))
        /\ (value r = Some 50000000%Q ->
            range_counts value (r :: l) = count_in_bin 5 (range_counts value l))
        /\ (value r = Some 50000001%Q ->
            range_counts value (r :: l) = count_in_bin 6 (range_counts value l)))
  /\ count_transactions [boundary_sheet] None
     = Ok (4%nat, 100200002%Q, [1; 1; 0; 0; 0; 1; 1]%nat)
  /\ count_unique_po_by_range [boundary_sheet] None
     = Ok (4%nat, [1; 1; 0; 0; 0; 1; 1]%nat)
  /\ get_po_breakdown [boundary_sheet] None
     = Ok [mkBreakdown "PO4" 1 50000001 "Di atas 50 Juta";
           mkBreakdown "PO3" 1 50000000 "10 Juta - 50 Juta";
           mkBreakdown "PO2" 1 100001 "100 Ribu - 500 Ribu";
           mkBreakdown "PO1" 1 100000 "0 - 100 Ribu"]
  /\ nth_error ranges_labels 0 = Some "0 - 100 Ribu"
  /\ nth_error ranges_labels 1 = Some "100 Ribu - 500 Ribu"
  /\ nth_error ranges_labels 5 = Some "10 Juta - 50 Juta"
  /\ nth_error ranges_labels 6 = Some "Di atas 50 Juta".
Proof.
  split; [repeat split; vm_compute; reflexivity|].
  split.
  - intros A value r l.
    repeat split; intro E; rewrite range_counts_cons, E; reflexivity.
  - repeat split; vm_compute; reflexivity.
Qed.

(** ** Negative amounts *)

(** A row of negative amount changes none of the seven counts. *)
Lemma range_counts_skip_negative {A : Type} (value : A -> option Q)
      (r : A) (l : list A) (q : Q) :
  value r = Some q -> (q < 0)%Q ->
  range_counts value (r :: l) = range_counts value l.
Proof.
  intros E H. unfold range_counts, count_where, ranges. simpl.
  rewrite E. unfold in_range, above_50M. simpl. qcases; reflexivity.
Qed.

(** C8, as it stands, fails at -5000: the amount does not satisfy the
    above-50M predicate, and [get_range] does not answer "Di atas 50 Juta". *)
Lemma C8_counterexample :
  (-5000 < 0)%Q
  /\ ~ In 6%nat (predicate_bins (-5000))
  /\ get_range (-5000) <> "Di atas 50 Juta".
Proof.
  split; [reflexivity|]. split.
  - vm_compute. tauto.
  - vm_compute. discriminate.
Qed.

(** C8 as amended: a negative amount satisfies none of the seven range
    predicates (neither that of bin 0 nor [> 50000000]), so a row or PO
    carrying it is counted in no bin; [get_range] labels it
    "0 - 100 Ribu". *)
Theorem C8_negative_amounts (q : Q) :
  (q < 0)%Q ->
  predicate_bins q = []
  /\ covered (Some q) = false
  /\ (forall (A : Type) (value : A -> option Q) (r : A) (l : list A),
        value r = Some q -> range_counts value (r :: l) = range_counts value l)
  /\ get_range q = "0 - 100 Ribu".
Proof.
  intro H. split; [|split; [|split]].
  - unfold predicate_bins, range_predicates, ranges. simpl.
    unfold in_range, above_50M; simpl. qcases; reflexivity.
  - apply covered_negative, H.
  - intros A value r l E. eapply range_counts_skip_negative; eauto.
  - unfold get_range. qcases; reflexivity.
Qed.

Lemma C8_negative_amounts_witness :
  predicate_bins (-5000) = []
  /\ covered (Some (-5000)%Q) = false
  /\ (forall (A : Type) (value : A -> option Q) (r : A) (l : list A),
        value r = Some (-5000)%Q ->
        range_counts value (r :: l) = range_counts value l)
  /\ get_range (-5000) = "0 - 100 Ribu".
Proof. apply (C8_negative_amounts (-5000)). reflexivity. Defined.

(** ** Percentages *)

Lemma percent_cell_zero_total : percent_cell 0 0 = NaN.
Proof. reflexivity. Qed.

(** Whenever the transaction total is 0, every percentage cell of
    [get_range_statistics] is NaN. *)
Lemma get_range_statistics_zero_total file vendor amount bins table :
  count_transactions file vendor = Ok (0%nat, amount, bins) ->
  get_range_statistics file vendor = Ok table ->
  map stat_Persentase table = repeat NaN 7.
Proof.
  intros Hc Hs. unfold get_range_statistics in Hs. rewrite Hc in Hs.
  simpl in Hs. inversion Hs; subst table; clear Hs.
  apply count_transactions_Ok_inv in Hc.
  destruct Hc as (df & rest & _ & _ & _ & Hlen & _ & ->).
  symmetry in Hlen. apply length_zero_iff_nil in Hlen. rewrite Hlen.
  reflexivity.
Qed.

(** Whenever the PO total is 0, every percentage cell of
    [get_unique_po_statistics] is 0. *)
Lemma get_unique_po_statistics_zero_total file vendor bins table :
  count_unique_po_by_range file vendor = Ok (0%nat, bins) ->
  get_unique_po_statistics file vendor = Ok table ->
  Forall (fun r => stat_Persentase r = Num 0) table.
Proof.
  intros Hc Hs. unfold get_unique_po_statistics in Hs. rewrite Hc in Hs.
  simpl in Hs. inversion Hs; subst table; clear Hs.
  apply Forall_forall. intros r Hr. apply in_map_iff in Hr.
  destruct Hr as [lc [<- _]]. reflexivity.
Qed.

(** C4 (the code breaks it): [get_range_statistics] divides by the total
    without the guard that [get_unique_po_statistics] has.  On a sheet
    none of whose rows is approved the total is 0; the transaction table
    then holds NaN in every percentage cell, where the PO table holds 0. *)
Theorem C4_zero_total_percentages :
  (exists amount bins,
     count_transactions [unapproved_sheet] None = Ok (0%nat, amount, bins))
  /\ (exists table,
        get_range_statistics [unapproved_sheet] None = Ok table
        /\ map stat_Persentase table = repeat NaN 7)
  /\ (exists table,
        get_unique_po_statistics [unapproved_sheet] None = Ok table
        /\ map stat_Persentase table = repeat (Num 0) 7).
Proof.
  split; [eexists _, _; vm_compute; reflexivity|].
  split; eexists; (split; [vm_compute; reflexivity|reflexivity]).
Qed.

(** ** A vendor without rows *)

Lemma filter_approved_In df l r :
  In r (filter_approved df l) <->
  In r l /\ (has_column status_column df = true ->
             cell_eqb (po_status_approval r) "Approved" = true).
Proof.
  unfold filter_approved. destruct (has_column status_column df).
  - rewrite filter_In. intuition.
  - intuition. discriminate.
Qed.

(** A vendor without rows in the transaction-level frame has none in the
    PO-level frame, which drops still more rows. *)
Lemma po_rows_empty_of_transaction_rows_empty df v :
  filter_vendor v (filter_approved df (dropna_jumlah (rows df))) = [] ->
  filter_vendor v (filter_approved df (dropna_jumlah_po (rows df))) = [].
Proof.
  intro H.
  destruct (filter_vendor v (filter_approved df (dropna_jumlah_po (rows df))))
    as [|r l] eqn:E; [reflexivity|].
  exfalso.
  assert (Hin : In r (filter_vendor v (filter_approved df (dropna_jumlah_po (rows df)))))
    by (rewrite E; left; reflexivity).
  unfold filter_vendor in Hin. apply filter_In in Hin. destruct Hin as [Hin Hv].
  apply filter_approved_In in Hin. destruct Hin as [Hin Ha].
  unfold dropna_jumlah_po in Hin. apply filter_In in Hin. destruct Hin as [Hin Hn].
  apply andb_prop in Hn. destruct Hn as [Hj _].
  assert (Hr : In r (filter_vendor v (filter_approved df (dropna_jumlah (rows df))))).
  { unfold filter_vendor. apply filter_In. split; [|exact Hv].
    apply filter_approved_In. split; [|exact Ha].
    unfold dropna_jumlah. apply filter_In. split; assumption. }
  rewrite H in Hr. exact Hr.
Qed.

Lemma vendor_given_nonempty (v : string) : v <> EmptyString -> vendor_given (Some v) = Some v.
Proof. intro H. apply vendor_given_Some. split; [reflexivity|exact H]. Qed.

(** C5, as it stands, fails on the PO-level operations: for the vendor
    "Nonexistent", who has no row in the sheet, [count_unique_po_by_range]
    returns a zero-count result and [get_po_breakdown] an empty table. *)
Lemma C5_counterexample :
  filter_vendor "Nonexistent" (rows two_po_sheet) = []
  /\ count_unique_po_by_range [two_po_sheet] (Some "Nonexistent")
     = Ok (0%nat, [0; 0; 0; 0; 0; 0; 0]%nat)
  /\ get_po_breakdown [two_po_sheet] (Some "Nonexistent") = Ok [].
Proof. repeat split; vm_compute; reflexivity. Qed.

(** C5 as amended: when a vendor filter is supplied and no row is left
    for the vendor after the other filters, [count_transactions] raises
    the error "Tidak ada transaksi yang ditemukan untuk vendor: ...";
    [count_unique_po_by_range] and [get_po_breakdown] carry no such check
    and return zero counts and an empty table. *)
Theorem C5_vendor_without_rows df rest v :
  v <> EmptyString ->
  has_column total_column df = true ->
  has_column vendor_column df = true ->
  has_column po_code_column df = true ->
  filter_vendor v (filter_approved df (dropna_jumlah (rows df))) = [] ->
  count_transactions (df :: rest) (Some v)
    = Raise (ValueError ("Tidak ada transaksi yang ditemukan untuk vendor: " ++ v))
  /\ count_unique_po_by_range (df :: rest) (Some v)
     = Ok (0%nat, [0; 0; 0; 0; 0; 0; 0]%nat)
  /\ get_po_breakdown (df :: rest) (Some v) = Ok [].
Proof.
  intros Hv Ht Hc Hp He.
  pose proof (po_rows_empty_of_transaction_rows_empty df v He) as Hpo.
  unfold count_transactions, count_unique_po_by_range, get_po_breakdown,
         po_filtered_rows.
  simpl. rewrite Ht, Hc, Hp, (vendor_given_nonempty v Hv). simpl.
  rewrite He, Hpo. simpl. repeat split; reflexivity.
Qed.

Lemma C5_vendor_without_rows_witness :
  count_transactions [two_po_sheet] (Some "Nonexistent")
    = Raise (ValueError "Tidak ada transaksi yang ditemukan untuk vendor: Nonexistent")
  /\ count_unique_po_by_range [two_po_sheet] (Some "Nonexistent")
     = Ok (0%nat, [0; 0; 0; 0; 0; 0; 0]%nat)
  /\ get_po_breakdown [two_po_sheet] (Some "Nonexistent") = Ok [].
Proof.
  apply (C5_vendor_without_rows two_po_sheet [] "Nonexistent");
    [discriminate | reflexivity | reflexivity | reflexivity | reflexivity].
Defined.

(** ** Missing columns *)

Lemma first_missing_transaction df c :
  first_missing [total_column; vendor_column] df = Some c ->
  (has_column total_column df = false /\ c = total_column)
  \/ (has_column total_column df = true
      /\ has_column vendor_column df = false /\ c = vendor_column).
Proof.
  unfold first_missing. simpl.
  destruct (has_column total_column df); simpl.
  - destruct (has_column vendor_column df); simpl; [discriminate|].
    intro H; inversion H. right. auto.
  - intro H; inversion H. left. auto.
Qed.

Lemma first_missing_po df c :
  first_missing [total_column; po_code_column] df = Some c ->
  (has_column total_column df = false /\ c = total_column)
  \/ (has_column total_column df = true
      /\ has_column po_code_column df = false /\ c = po_code_column).
Proof.
  unfold first_missing. simpl.
  destruct (has_column total_column df); simpl.
  - destruct (has_column po_code_column df); simpl; [discriminate|].
    intro H; inversion H. right. auto.
  - intro H; inversion H. left. auto.
Qed.

(** C6, as it stands, fails on the PO aggregator: on a sheet without
    [jumlah] its error names the column but does not list the columns of
    the sheet, and likewise on a sheet without [po_code]. *)
Lemma C6_counterexample :
  count_unique_po_by_range [no_jumlah_sheet] None
    = Raise (ValueError "Kolom 'jumlah' tidak ditemukan.")
  /\ contains (join_columns no_jumlah_sheet) "Kolom 'jumlah' tidak ditemukan." = false
  /\ count_unique_po_by_range [no_po_code_sheet] None
    = Raise (ValueError "Kolom 'po_code' tidak ditemukan.")
  /\ contains (join_columns no_po_code_sheet) "Kolom 'po_code' tidak ditemukan." = false.
Proof. repeat split; vm_compute; reflexivity. Qed.

(** C6 as amended: a missing required column makes the call fail with an
    error that names the column.  The error of [count_transactions]
    (columns [jumlah], [vendor_name]) also lists the columns of the sheet;
    the errors of [count_unique_po_by_range] and [get_po_breakdown]
    (columns [jumlah], [po_code]) name the column only. *)
Theorem C6_missing_column_errors df rest vendor :
  (forall c, first_missing [total_column; vendor_column] df = Some c ->
     count_transactions (df :: rest) vendor
     = Raise (ValueError ("Kolom '" ++ c
                          ++ "' tidak ditemukan. Kolom yang tersedia: "
                          ++ String.concat ", " (columns df))))
  /\ (forall c, first_missing [total_column; po_code_column] df = Some c ->
        count_unique_po_by_range (df :: rest) vendor
        = Raise (ValueError ("Kolom '" ++ c ++ "' tidak ditemukan."))
        /\ get_po_breakdown (df :: rest) vendor
           = Raise (ValueError ("Kolom '" ++ c ++ "' tidak ditemukan."))).
Proof.
  split; intros c H.
  - apply first_missing_transaction in H.
    unfold count_transactions. simpl.
    destruct H as [[Ht ->]|[Ht [Hv ->]]]; rewrite Ht; simpl;
      [|rewrite Hv; simpl]; reflexivity.
  - apply first_missing_po in H.
    unfold count_unique_po_by_range, get_po_breakdown, po_filtered_rows. simpl.
    destruct H as [[Ht ->]|[Ht [Hp ->]]]; rewrite Ht; simpl;
      [|rewrite Hp; simpl]; split; reflexivity.
Qed.

Lemma C6_missing_column_errors_witness :
  count_transactions [no_jumlah_sheet] None
    = Raise (ValueError
        "Kolom 'jumlah' tidak ditemukan. Kolom yang tersedia: vendor_name, po_code")
  /\ count_unique_po_by_range [no_po_code_sheet] None
     = Raise (ValueError "Kolom 'po_code' tidak ditemukan.")
  /\ get_po_breakdown [no_po_code_sheet] None
     = Raise (ValueError "Kolom 'po_code' tidak ditemukan.").
Proof.
  split.
  - apply (proj1 (C6_missing_column_errors no_jumlah_sheet [] None) "jumlah").
    reflexivity.
  - apply (proj2 (C6_missing_column_errors no_po_code_sheet [] None) "po_code").
    reflexivity.
Defined.

(** ** Order of the breakdown table *)

(** The grouped summary does not depend on which of two POs the sheet
    shows first, so no ordering of the table computed from it can follow
    first-seen order on both sheets. *)
Lemma po_summary_forgets_row_order :
  po_summary_of (rows tie_sheet) = po_summary_of (rows tie_sheet_swapped).
Proof. vm_compute. reflexivity. Qed.

Lemma no_order_keeps_first_seen (order : list BreakdownRow -> list BreakdownRow) :
  Permutation (po_summary_of (rows tie_sheet)) (order (po_summary_of (rows tie_sheet))) ->
  ties_first_seen (rows tie_sheet) (order (po_summary_of (rows tie_sheet)))
  && ties_first_seen (rows tie_sheet_swapped)
                     (order (po_summary_of (rows tie_sheet_swapped))) = false.
Proof.
  rewrite <- po_summary_forgets_row_order.
  generalize (order (po_summary_of (rows tie_sheet))). intros t Hp.
  change (po_summary_of (rows tie_sheet))
    with [mkBreakdown "PO1" 1 (0 + 100) "0 - 100 Ribu";
          mkBreakdown "PO2" 1 (0 + 100) "0 - 100 Ribu"] in Hp.
  assert (Hlen := Permutation_length Hp). simpl in Hlen.
  destruct t as [|x [|y [|z t]]]; try discriminate Hlen.
  apply Permutation_length_2_inv in Hp.
  destruct Hp as [Hp|Hp]; inversion Hp; subst; vm_compute; reflexivity.
Qed.

(** Descending order leaves the order of equal totals open: the summary of
    [tie_sheet] and its reverse are two different descending arrangements
    of the same rows. *)
Lemma descending_leaves_ties_open :
  descending_by_total (po_summary_of (rows tie_sheet))
  /\ descending_by_total (rev (po_summary_of (rows tie_sheet)))
  /\ Permutation (po_summary_of (rows tie_sheet))
                 (rev (po_summary_of (rows tie_sheet)))
  /\ po_summary_of (rows tie_sheet) <> rev (po_summary_of (rows tie_sheet)).
Proof.
  split; [|split; [|split]].
  - unfold descending_by_total. simpl.
    repeat constructor; apply Qle_bool_imp_le; reflexivity.
  - unfold descending_by_total. simpl.
    repeat constructor; apply Qle_bool_imp_le; reflexivity.
  - apply Permutation_rev.
  - simpl. intro E. inversion E.
Qed.

(** C7, as it stands, fails on two POs of equal total, whatever the sort
    does with ties.  [tie_sheet] shows PO2 first and [tie_sheet_swapped]
    shows PO1 first; both give [get_po_breakdown] the same grouped summary
    and so the same table, and no arrangement of that summary is in
    first-seen order for both sheets. *)
Lemma C7_counterexample :
  first_seen "PO2" (rows tie_sheet) = 0%nat
  /\ first_seen "PO1" (rows tie_sheet) = 1%nat
  /\ first_seen "PO1" (rows tie_sheet_swapped) = 0%nat
  /\ first_seen "PO2" (rows tie_sheet_swapped) = 1%nat
  /\ (exists l l',
        po_filtered_rows [tie_sheet] None = Ok l
        /\ po_filtered_rows [tie_sheet_swapped] None = Ok l'
        /\ po_summary_of l = po_summary_of l'
        /\ (forall table,
              Permutation (po_summary_of l) table ->
              ties_first_seen (rows tie_sheet) table
              && ties_first_seen (rows tie_sheet_swapped) table = false))
  /\ (exists table,
        get_po_breakdown [tie_sheet] None = Ok table
        /\ get_po_breakdown [tie_sheet_swapped] None = Ok table
        /\ ties_first_seen (rows tie_sheet) table
           && ties_first_seen (rows tie_sheet_swapped) table = false).
Proof.
  repeat (split; [reflexivity|]). split.
  - exists (rows tie_sheet), (rows tie_sheet_swapped).
    split; [reflexivity|]. split; [reflexivity|].
    split; [apply po_summary_forgets_row_order|].
    intros table Hp.
    pose proof (no_order_keeps_first_seen (fun _ => table) Hp) as H.
    exact H.
  - eexists. split; [reflexivity|]. split; vm_compute; reflexivity.
Qed.

Lemma po_summary_keys_ascending l :
  StronglySorted (fun a b => String.compare (PO_Code a) (PO_Code b) = Lt)
                 (po_summary_of l).
Proof.
  unfold po_summary_of.
  pose proof (groupby_po_code_keys_ascending l) as H. unfold keys_ascending in H.
  induction H as [|a g Hs IH Hall]; simpl; constructor; [exact IH|].
  apply Forall_map. eapply Forall_impl; [|exact Hall]. simpl. auto.
Qed.

(** The summary has one row per PO code. *)
Lemma po_summary_codes_NoDup l : NoDup (map PO_Code (po_summary_of l)).
Proof.
  pose proof (po_summary_keys_ascending l) as H.
  induction H as [|a t Hs IH Hall]; simpl; constructor; [|exact IH].
  intro Hin. apply in_map_iff in Hin. destruct Hin as (b & Eb & Hb).
  pose proof (proj1 (Forall_forall _ _) Hall b Hb) as Hlt. simpl in Hlt.
  rewrite Eb, string_compare_refl in Hlt. discriminate.
Qed.

(** C7 as amended: the table of [get_po_breakdown] is ordered descending
    by total value and holds exactly the rows of the grouped summary, one
    per PO code.  The grouping yields the summary in ascending order of PO
    code, and the table is computed from the summary alone: a workbook
    with the same summary gets the same table, whichever PO its sheet
    shows first.  Nothing is stated about the order of rows with equal
    totals, which the sort of the source does not fix. *)
Theorem C7_breakdown_order file vendor table :
  get_po_breakdown file vendor = Ok table ->
  exists l,
    po_filtered_rows file vendor = Ok l
    /\ descending_by_total table
    /\ Permutation (po_summary_of l) table
    /\ StronglySorted (fun a b => String.compare (PO_Code a) (PO_Code b) = Lt)
                      (po_summary_of l)
    /\ NoDup (map PO_Code table)
    /\ forall file' vendor' l',
         po_filtered_rows file' vendor' = Ok l' ->
         po_summary_of l' = po_summary_of l ->
         get_po_breakdown file' vendor' = Ok table.
Proof.
  unfold get_po_breakdown.
  destruct (po_filtered_rows file vendor) as [l|e]; simpl; [|discriminate].
  intro H. inversion H; subst table. exists l.
  split; [reflexivity|]. split; [apply sort_values_desc_sorted|].
  split; [apply sort_values_desc_perm|].
  split; [apply po_summary_keys_ascending|].
  split.
  - eapply Permutation_NoDup;
      [apply Permutation_map, sort_values_desc_perm|].
    apply po_summary_codes_NoDup.
  - intros file' vendor' l' Hl' E. rewrite Hl'. simpl. rewrite E. reflexivity.
Qed.

Lemma C7_breakdown_order_witness :
  exists l,
    po_filtered_rows [two_po_sheet] None = Ok l
    /\ descending_by_total
         [mkBreakdown "PO2" 1 (0 + 200000) "100 Ribu - 500 Ribu";
          mkBreakdown "PO1" 2 (0 + 60000 + 50000) "100 Ribu - 500 Ribu"]
    /\ Permutation (po_summary_of l)
         [mkBreakdown "PO2" 1 (0 + 200000) "100 Ribu - 500 Ribu";
          mkBreakdown "PO1" 2 (0 + 60000 + 50000) "100 Ribu - 500 Ribu"]
    /\ StronglySorted (fun a b => String.compare (PO_Code a) (PO_Code b) = Lt)
                      (po_summary_of l)
    /\ NoDup (map PO_Code
                  [mkBreakdown "PO2" 1 (0 + 200000) "100 Ribu - 500 Ribu";
                   mkBreakdown "PO1" 2 (0 + 60000 + 50000) "100 Ribu - 500 Ribu"])
    /\ forall file' vendor' l',
         po_filtered_rows file' vendor' = Ok l' ->
         po_summary_of l' = po_summary_of l ->
         get_po_breakdown file' vendor' =
         Ok [mkBreakdown "PO2" 1 (0 + 200000) "100 Ribu - 500 Ribu";
             mkBreakdown "PO1" 2 (0 + 60000 + 50000) "100 Ribu - 500 Ribu"].
Proof.
  apply (C7_breakdown_order [two_po_sheet] None). reflexivity.
Defined.

(** ** Filtering by vendor never raises the total *)

(** C9: when [count_transactions] succeeds with a vendor, it succeeds
    without one on the same workbook, and the total with the vendor is at
    most the total without. *)
Theorem C9_vendor_filter_monotone file v total amount bins :
  count_transactions file (Some v) = Ok (total, amount, bins) ->
  exists total' amount' bins',
    count_transactions file None = Ok (total', amount', bins')
    /\ (total <= total')%nat.
Proof.
  intro H. apply count_transactions_Ok_inv in H.
  destruct H as (df & rest & -> & Ht & Hv & -> & _ & _).
  unfold count_transactions. simpl. rewrite Ht, Hv. simpl.
  eexists _, _, _. split; [reflexivity|].
  unfold transaction_rows.
  destruct (vendor_given (Some v)); [apply filter_vendor_length|apply le_n].
Qed.

Lemma C9_vendor_filter_monotone_witness :
  exists total' amount' bins',
    count_transactions [two_po_sheet] None = Ok (total', amount', bins')
    /\ (3 <= total')%nat.
Proof.
  apply (C9_vendor_filter_monotone [two_po_sheet] "X" 3
           (0 + 60000 + 50000 + 200000) [2; 1; 0; 0; 0; 0; 0]%nat).
  reflexivity.
Defined.

(** ** The raw export does not validate *)

(** C10: [get_transaction_dataframe] validates nothing.  Without the
    [jumlah] column it raises [KeyError] where [count_transactions] raises
    its [ValueError]; for a vendor without rows it returns the empty frame
    where [count_transactions] raises; and without the [vendor_name]
    column and without a vendor it returns the filtered frame where
    [count_transactions] raises. *)
Theorem C10_export_does_not_validate df rest :
  (forall vendor,
     has_column total_column df = false ->
     get_transaction_dataframe (df :: rest) vendor = Raise (KeyError "jumlah")
     /\ count_transactions (df :: rest) vendor
        = Raise (ValueError
                   ("Kolom 'jumlah' tidak ditemukan. Kolom yang tersedia: "
                    ++ String.concat ", " (columns df))))
  /\ (forall v,
        v <> EmptyString ->
        has_column total_column df = true ->
        has_column vendor_column df = true ->
        filter_vendor v (filter_approved df (dropna_jumlah (rows df))) = [] ->
        get_transaction_dataframe (df :: rest) (Some v) = Ok (mkDF (columns df) [])
        /\ count_transactions (df :: rest) (Some v)
           = Raise (ValueError
                      ("Tidak ada transaksi yang ditemukan untuk vendor: " ++ v)))
  /\ (has_column total_column df = true ->
      has_column vendor_column df = false ->
      get_transaction_dataframe (df :: rest) None
        = Ok (mkDF (columns df) (filter_approved df (dropna_jumlah (rows df))))
      /\ count_transactions (df :: rest) None
         = Raise (ValueError
                    ("Kolom 'vendor_name' tidak ditemukan. Kolom yang tersedia: "
                     ++ String.concat ", " (columns df)))).
Proof.
  unfold get_transaction_dataframe, count_transactions. simpl.
  split; [|split].
  - intros vendor Ht. rewrite Ht. simpl. split; reflexivity.
  - intros v Hv Ht Hc He. rewrite Ht, Hc, (vendor_given_nonempty v Hv). simpl.
    rewrite He. simpl. split; reflexivity.
  - intros Ht Hc. rewrite Ht, Hc. simpl. split; reflexivity.
Qed.

Lemma C10_export_does_not_validate_witness :
  (get_transaction_dataframe [no_jumlah_sheet] None = Raise (KeyError "jumlah")
   /\ count_transactions [no_jumlah_sheet] None
      = Raise (ValueError
          "Kolom 'jumlah' tidak ditemukan. Kolom yang tersedia: vendor_name, po_code"))
  /\ (get_transaction_dataframe [two_po_sheet] (Some "Nonexistent")
      = Ok (mkDF all_columns [])
      /\ count_transactions [two_po_sheet] (Some "Nonexistent")
         = Raise (ValueError
             "Tidak ada transaksi yang ditemukan untuk vendor: Nonexistent"))
  /\ (get_transaction_dataframe [no_vendor_sheet] None
      = Ok (mkDF ["jumlah"; "po_code"]
                 [mkRow None (Some 60000%Q) None (Some "PO1")])
      /\ count_transactions [no_vendor_sheet] None
         = Raise (ValueError
             "Kolom 'vendor_name' tidak ditemukan. Kolom yang tersedia: jumlah, po_code")).
Proof.
  split; [|split].
  - apply (proj1 (C10_export_does_not_validate no_jumlah_sheet []) None).
    reflexivity.
  - apply (proj1 (proj2 (C10_export_does_not_validate two_po_sheet [])) "Nonexistent");
      [discriminate | reflexivity | reflexivity | reflexivity].
  - apply (proj2 (proj2 (C10_export_does_not_validate no_vendor_sheet [])));
      reflexivity.
Defined.

(** * Further properties of the code *)

(** ** The classifier *)

(** An amount satisfies at most one of the seven range predicates, and
    when it satisfies one, [get_range] labels it with that same bin. *)
Theorem predicate_bin_unique_and_labelled (q : Q) :
  predicate_bins q = []
  \/ exists i, predicate_bins q = [i]
               /\ (i < 7)%nat
               /\ nth_error ranges_labels i = Some (get_range q).
Proof.
  unfold predicate_bins, get_range, range_predicates, ranges. simpl.
  unfold in_range, above_50M. simpl fst; simpl snd.
  qcases; simpl; auto; right; eexists; (split; [reflexivity|]);
    (split; [lia|reflexivity]).
Qed.

(** [get_range] answers one of the seven labels for every amount, and a
    larger amount never gets an earlier label. *)
Theorem get_range_monotone (q1 q2 : Q) :
  (q1 <= q2)%Q ->
  exists i j, get_range_bin q1 = Some i /\ get_range_bin q2 = Some j
              /\ (i <= j)%nat /\ (j < 7)%nat.
Proof.
  intro H. unfold get_range_bin, get_range.
  qcases; simpl; eexists _, _; (split; [reflexivity|]);
    (split; [reflexivity|]); split; lia.
Qed.

Lemma get_range_monotone_witness :
  exists i j, get_range_bin 100000 = Some i /\ get_range_bin 100001 = Some j
              /\ (i <= j)%nat /\ (j < 7)%nat.
Proof. apply (get_range_monotone 100000 100001). discriminate. Defined.

(** ** The filtered export *)

Lemma cell_eqb_true_iff (cell : option string) (s : string) :
  cell_eqb cell s = true <-> cell = Some s.
Proof.
  destruct cell as [c|]; simpl; [|split; discriminate].
  rewrite String.eqb_eq. split; [intros ->; reflexivity|intro H; inversion H; reflexivity].
Qed.

Lemma notna_true_iff {A : Type} (cell : option A) : notna cell = true <-> cell <> None.
Proof. destruct cell; simpl; split; congruence. Qed.

Lemma filter_all {A : Type} (p : A -> bool) (l : list A) :
  (forall x, In x l -> p x = true) -> filter p l = l.
Proof.
  induction l as [|a l IH]; intro H; [reflexivity|]. simpl.
  rewrite (H a (or_introl eq_refl)). f_equal. apply IH.
  intros x Hx. apply H. right; exact Hx.
Qed.

Lemma filter_comm {A : Type} (p q : A -> bool) (l : list A) :
  filter p (filter q l) = filter q (filter p l).
Proof.
  induction l as [|a l IH]; [reflexivity|]. simpl.
  destruct (p a) eqn:Ep, (q a) eqn:Eq; simpl; rewrite ?Ep, ?Eq, IH; reflexivity.
Qed.

Lemma filter_andb {A : Type} (p q : A -> bool) (l : list A) :
  filter (fun x => p x && q x) l = filter q (filter p l).
Proof.
  induction l as [|a l IH]; [reflexivity|]. simpl.
  destruct (p a); simpl; [destruct (q a)|]; rewrite IH; reflexivity.
Qed.

Lemma get_transaction_dataframe_Ok_inv file vendor out :
  get_transaction_dataframe file vendor = Ok out ->
  exists df rest,
    file = df :: rest
    /\ has_column total_column df = true
    /\ (vendor_given vendor <> None -> has_column vendor_column df = true)
    /\ out = mkDF (columns df) (transaction_rows df vendor).
Proof.
  unfold get_transaction_dataframe, transaction_rows.
  destruct file as [|df rest]; simpl; [discriminate|].
  destruct (has_column total_column df) eqn:Ht; simpl; [|discriminate].
  intro H. exists df, rest.
  destruct (vendor_given vendor) as [v|].
  - destruct (has_column vendor_column df) eqn:Hv; [|discriminate].
    inversion H; subst. repeat split; auto.
  - inversion H; subst. repeat split; auto; intro C; contradiction.
Qed.

Lemma transaction_rows_In df vendor r :
  In r (transaction_rows df vendor) <->
  In r (rows df)
  /\ jumlah r <> None
  /\ (has_column status_column df = true -> po_status_approval r = Some "Approved")
  /\ (forall v, vendor_given vendor = Some v -> vendor_name r = Some v).
Proof.
  unfold transaction_rows.
  assert (Hbase : In r (filter_approved df (dropna_jumlah (rows df))) <->
                  In r (rows df) /\ jumlah r <> None
                  /\ (has_column status_column df = true ->
                      po_status_approval r = Some "Approved")).
  { rewrite filter_approved_In. unfold dropna_jumlah.
    rewrite filter_In, notna_true_iff, cell_eqb_true_iff. tauto. }
  destruct (vendor_given vendor) as [v|].
  - unfold filter_vendor. rewrite filter_In, Hbase, cell_eqb_true_iff.
    split.
    + intros [[H1 [H2 H3]] H4]. repeat split; auto.
      intros v' E. inversion E; subst; exact H4.
    + intros [H1 [H2 [H3 H4]]]. repeat split; auto.
  - rewrite Hbase. split.
    + intros [H1 [H2 H3]]. repeat split; auto. intros v' E; discriminate.
    + intros [H1 [H2 [H3 _]]]. repeat split; auto.
Qed.

(** The three filter steps of the export are one pass with the row test
    [kept_by_export]. *)
Lemma transaction_rows_filter df vendor :
  transaction_rows df vendor = filter (kept_by_export df vendor) (rows df).
Proof.
  unfold transaction_rows, kept_by_export, filter_approved, dropna_jumlah,
         filter_vendor.
  destruct (has_column status_column df);
    destruct (vendor_given vendor) as [v|];
    induction (rows df) as [|r l IH]; try reflexivity;
    cbn [filter negb orb];
    destruct (notna (jumlah r));
    cbn [filter andb];
    try destruct (cell_eqb (po_status_approval r) "Approved");
    cbn [filter andb];
    try destruct (cell_eqb (vendor_name r) v);
    cbn [filter andb]; rewrite IH; reflexivity.
Qed.

(** The frame [get_transaction_dataframe] returns keeps the columns of
    the sheet and exactly the rows with a numeric [jumlah] that are
    approved (when the sheet has a status column) and belong to the vendor
    (when one is given): its rows are the rows of the sheet that pass this
    test, in the order of the sheet and as often as the sheet has them.
    It never has more rows than the sheet. *)
Theorem get_transaction_dataframe_rows file vendor out :
  get_transaction_dataframe file vendor = Ok out ->
  exists df rest,
    file = df :: rest
    /\ out = mkDF (columns df) (filter (kept_by_export df vendor) (rows df))
    /\ (forall r, kept_by_export df vendor r = true <->
                  jumlah r <> None
                  /\ (has_column status_column df = true ->
                      po_status_approval r = Some "Approved")
                  /\ (forall v, vendor_given vendor = Some v ->
                                vendor_name r = Some v))
    /\ columns out = columns df
    /\ (List.length (rows out) <= List.length (rows df))%nat
    /\ forall r,
         In r (rows out) <->
         In r (rows df)
         /\ jumlah r <> None
         /\ (has_column status_column df = true ->
             po_status_approval r = Some "Approved")
         /\ (forall v, vendor_given vendor = Some v -> vendor_name r = Some v).
Proof.
  intro H. apply get_transaction_dataframe_Ok_inv in H.
  destruct H as (df & rest & -> & _ & _ & ->). exists df, rest.
  assert (Hkept : forall r, kept_by_export df vendor r = true <->
                  jumlah r <> None
                  /\ (has_column status_column df = true ->
                      po_status_approval r = Some "Approved")
                  /\ (forall v, vendor_given vendor = Some v ->
                                vendor_name r = Some v)).
  { intro r. pose proof (transaction_rows_In df vendor r) as Hin.
    rewrite transaction_rows_filter, filter_In in Hin.
    unfold kept_by_export in *.
    rewrite !andb_true_iff, orb_true_iff, negb_true_iff, notna_true_iff,
            cell_eqb_true_iff.
    split.
    - intros [[H1 H2] H3]. split; [exact H1|]. split.
      + intro Hs. destruct H2 as [H2|H2]; [congruence|exact H2].
      + intros v Ev. rewrite Ev in H3. apply cell_eqb_true_iff, H3.
    - intros [H1 [H2 H3]]. split; [split; [exact H1|]|].
      + destruct (has_column status_column df); [right; auto|left; reflexivity].
      + destruct (vendor_given vendor) as [v|]; [|reflexivity].
        apply cell_eqb_true_iff, H3. reflexivity. }
  split; [reflexivity|].
  split; [rewrite transaction_rows_filter; reflexivity|].
  split; [exact Hkept|]. simpl.
  split; [reflexivity|]. split.
  - rewrite transaction_rows_filter. apply filter_length_le.
  - intro r. apply transaction_rows_In.
Qed.

Lemma get_transaction_dataframe_rows_witness :
  exists df rest,
    [mixed_sheet] = df :: rest
    /\ mkDF all_columns [approved "X" "PO1" 60000; approved "X" "PO1" 60000]
       = mkDF (columns df) (filter (kept_by_export df (Some "X")) (rows df))
    /\ (forall r, kept_by_export df (Some "X") r = true <->
                  jumlah r <> None
                  /\ (has_column status_column df = true ->
                      po_status_approval r = Some "Approved")
                  /\ (forall v, vendor_given (Some "X") = Some v ->
                                vendor_name r = Some v))
    /\ columns (mkDF all_columns
                     [approved "X" "PO1" 60000; approved "X" "PO1" 60000])
       = columns df
    /\ (List.length
          (rows (mkDF all_columns
                      [approved "X" "PO1" 60000; approved "X" "PO1" 60000]))
        <= List.length (rows df))%nat
    /\ forall r,
         In r (rows (mkDF all_columns
                          [approved "X" "PO1" 60000; approved "X" "PO1" 60000])) <->
         In r (rows df)
         /\ jumlah r <> None
         /\ (has_column status_column df = true ->
             po_status_approval r = Some "Approved")
         /\ (forall v, vendor_given (Some "X") = Some v -> vendor_name r = Some v).
Proof.
  apply (get_transaction_dataframe_rows [mixed_sheet] (Some "X")). reflexivity.
Defined.

(** Whenever [count_transactions] succeeds, [get_transaction_dataframe]
    succeeds on the same arguments, and the total, the amount and the
    seven counts are the row count, the [jumlah] sum and the range counts
    of that frame. *)
Theorem count_transactions_matches_export file vendor total amount bins :
  count_transactions file vendor = Ok (total, amount, bins) ->
  exists out,
    get_transaction_dataframe file vendor = Ok out
    /\ total = List.length (rows out)
    /\ amount = sum_jumlah (rows out)
    /\ bins = range_counts jumlah (rows out).
Proof.
  intro H. apply count_transactions_Ok_inv in H.
  destruct H as (df & rest & -> & Ht & Hv & -> & -> & ->).
  exists (mkDF (columns df) (transaction_rows df vendor)).
  split; [|repeat split; reflexivity].
  unfold get_transaction_dataframe, transaction_rows. simpl.
  rewrite Ht, Hv. simpl. destruct (vendor_given vendor); reflexivity.
Qed.

Lemma count_transactions_matches_export_witness :
  exists out,
    get_transaction_dataframe [two_po_sheet] (Some "X") = Ok out
    /\ 3%nat = List.length (rows out)
    /\ (0 + 60000 + 50000 + 200000)%Q = sum_jumlah (rows out)
    /\ [2; 1; 0; 0; 0; 0; 0]%nat = range_counts jumlah (rows out).
Proof.
  apply (count_transactions_matches_export [two_po_sheet] (Some "X")). reflexivity.
Defined.

Lemma has_column_same_columns c df df' :
  columns df' = columns df -> has_column c df' = has_column c df.
Proof. unfold has_column. intros ->. reflexivity. Qed.

Lemma transaction_rows_fixed df vendor :
  transaction_rows (mkDF (columns df) (transaction_rows df vendor)) vendor
  = transaction_rows df vendor.
Proof.
  set (l := transaction_rows df vendor).
  assert (Hl : forall r, In r l -> _) by (intros r Hr; exact (proj1 (transaction_rows_In df vendor r) Hr)).
  unfold transaction_rows at 1. simpl.
  assert (H1 : dropna_jumlah l = l).
  { apply filter_all. intros r Hr. apply notna_true_iff. apply (Hl r Hr). }
  rewrite H1.
  assert (H2 : filter_approved (mkDF (columns df) l) l = l).
  { unfold filter_approved.
    rewrite (has_column_same_columns status_column df (mkDF (columns df) l) eq_refl).
    destruct (has_column status_column df) eqn:Hs; [|reflexivity].
    apply filter_all. intros r Hr. apply cell_eqb_true_iff.
    apply (Hl r Hr). reflexivity. }
  rewrite H2.
  destruct (vendor_given vendor) as [v|] eqn:Ev; [|reflexivity].
  apply filter_all. intros r Hr. apply cell_eqb_true_iff.
  apply (Hl r Hr). reflexivity.
Qed.

Lemma count_transactions_Ok_nonempty df rest vendor res :
  count_transactions (df :: rest) vendor = Ok res ->
  vendor_given vendor <> None ->
  transaction_rows df vendor <> [].
Proof.
  unfold count_transactions, transaction_rows. simpl.
  destruct (has_column total_column df); simpl; [|discriminate].
  destruct (has_column vendor_column df); simpl; [|discriminate].
  destruct (vendor_given vendor) as [v|]; [|intros _ C; contradiction].
  destruct (filter_vendor v _); simpl; [discriminate|].
  intros _ _. discriminate.
Qed.

Lemma count_transactions_of_rows df rest vendor :
  has_column total_column df = true ->
  has_column vendor_column df = true ->
  (vendor_given vendor <> None -> transaction_rows df vendor <> []) ->
  count_transactions (df :: rest) vendor
  = Ok (List.length (transaction_rows df vendor),
        sum_jumlah (transaction_rows df vendor),
        range_counts jumlah (transaction_rows df vendor)).
Proof.
  intros Ht Hv Hne. unfold count_transactions, transaction_rows in *. simpl.
  rewrite Ht, Hv. simpl.
  destruct (vendor_given vendor) as [v|]; [|reflexivity].
  destruct (filter_vendor v _) as [|r l]; [|reflexivity].
  exfalso. apply Hne; [discriminate|reflexivity].
Qed.

Lemma get_transaction_dataframe_of_rows df rest vendor :
  has_column total_column df = true ->
  (vendor_given vendor <> None -> has_column vendor_column df = true) ->
  get_transaction_dataframe (df :: rest) vendor
  = Ok (mkDF (columns df) (transaction_rows df vendor)).
Proof.
  intros Ht Hv. unfold get_transaction_dataframe, transaction_rows. simpl.
  rewrite Ht. simpl.
  destruct (vendor_given vendor) as [v|]; [|reflexivity].
  rewrite Hv by discriminate. reflexivity.
Qed.

(** Filtering is idempotent: read again as a one-sheet workbook, the
    frame of [get_transaction_dataframe] comes back unchanged, and
    [count_transactions] gives on it what it gives on the workbook. *)
Theorem export_is_a_fixed_point file vendor out :
  get_transaction_dataframe file vendor = Ok out ->
  get_transaction_dataframe [out] vendor = Ok out
  /\ forall res, count_transactions file vendor = Ok res ->
                 count_transactions [out] vendor = Ok res.
Proof.
  intro H. apply get_transaction_dataframe_Ok_inv in H.
  destruct H as (df & rest & -> & Ht & Hv & ->).
  pose proof (transaction_rows_fixed df vendor) as Hfix.
  set (out := mkDF (columns df) (transaction_rows df vendor)) in *.
  assert (Hcol : forall c, has_column c out = has_column c df)
    by (intro c; apply has_column_same_columns; reflexivity).
  split.
  - rewrite (get_transaction_dataframe_of_rows out [] vendor).
    + rewrite Hfix. reflexivity.
    + rewrite Hcol. exact Ht.
    + intro Hg. rewrite Hcol. exact (Hv Hg).
  - intros res Hc.
    pose proof (count_transactions_Ok_nonempty df rest vendor res Hc) as Hne.
    destruct res as [[total amount] bins].
    apply count_transactions_Ok_inv in Hc.
    destruct Hc as (df0 & rest0 & E & _ & Hv0 & -> & -> & ->).
    inversion E; subst df0 rest0.
    rewrite (count_transactions_of_rows out [] vendor).
    + rewrite Hfix. reflexivity.
    + rewrite Hcol. exact Ht.
    + rewrite Hcol. exact Hv0.
    + rewrite Hfix. exact Hne.
Qed.

Lemma export_is_a_fixed_point_witness :
  get_transaction_dataframe [mkDF all_columns (rows two_po_sheet)] (Some "X")
  = Ok (mkDF all_columns (rows two_po_sheet))
  /\ forall res, count_transactions [two_po_sheet] (Some "X") = Ok res ->
                 count_transactions [mkDF all_columns (rows two_po_sheet)] (Some "X")
                 = Ok res.
Proof.
  apply (export_is_a_fixed_point [two_po_sheet] (Some "X")). reflexivity.
Defined.

(** ** The vendor column at PO level *)

(** The PO-level functions do not validate [vendor_name]: on a sheet
    that has [jumlah] and [po_code] but no [vendor_name], a call of
    [count_unique_po_by_range], [get_po_breakdown] or
    [get_unique_po_statistics] with a vendor raises [KeyError], and a call
    of each of the three without one succeeds. *)
Theorem po_functions_do_not_validate_vendor_column df rest :
  has_column total_column df = true ->
  has_column po_code_column df = true ->
  has_column vendor_column df = false ->
  (forall v, v <> EmptyString ->
     count_unique_po_by_range (df :: rest) (Some v) = Raise (KeyError "vendor_name")
     /\ get_po_breakdown (df :: rest) (Some v) = Raise (KeyError "vendor_name")
     /\ get_unique_po_statistics (df :: rest) (Some v)
        = Raise (KeyError "vendor_name"))
  /\ (exists total bins table stats,
        count_unique_po_by_range (df :: rest) None = Ok (total, bins)
        /\ get_po_breakdown (df :: rest) None = Ok table
        /\ get_unique_po_statistics (df :: rest) None = Ok stats).
Proof.
  intros Ht Hp Hv.
  unfold get_unique_po_statistics, count_unique_po_by_range, get_po_breakdown,
         po_filtered_rows.
  simpl. rewrite Ht, Hp. simpl. split.
  - intros v Hne. rewrite (vendor_given_nonempty v Hne), Hv. simpl.
    repeat split; reflexivity.
  - eexists _, _, _, _. repeat split; reflexivity.
Qed.

Lemma po_functions_do_not_validate_vendor_column_witness :
  (forall v, v <> EmptyString ->
     count_unique_po_by_range [no_vendor_sheet] (Some v) = Raise (KeyError "vendor_name")
     /\ get_po_breakdown [no_vendor_sheet] (Some v) = Raise (KeyError "vendor_name")
     /\ get_unique_po_statistics [no_vendor_sheet] (Some v)
        = Raise (KeyError "vendor_name"))
  /\ (exists total bins table stats,
        count_unique_po_by_range [no_vendor_sheet] None = Ok (total, bins)
        /\ get_po_breakdown [no_vendor_sheet] None = Ok table
        /\ get_unique_po_statistics [no_vendor_sheet] None = Ok stats).
Proof.
  apply (po_functions_do_not_validate_vendor_column no_vendor_sheet []);
    reflexivity.
Defined.

(** ** Unique POs *)

Lemma group_insert_key_In k r groups k' :
  In k' (map fst (group_insert k r groups)) <-> k' = k \/ In k' (map fst groups).
Proof.
  induction groups as [|[k0 g0] tl IH]; simpl.
  - intuition.
  - destruct (String.compare k k0) eqn:E; simpl.
    + apply String.compare_eq_iff in E. subst k0. intuition.
    + intuition.
    + rewrite IH. intuition.
Qed.

Lemma groupby_fold_key_In l : forall acc k,
  In k (map fst (fold_left (fun groups r =>
                              match po_code r with
                              | Some k => group_insert k r groups
                              | None => groups
                              end) l acc)) <->
  In k (map fst acc) \/ exists r, In r l /\ po_code r = Some k.
Proof.
  induction l as [|x l IH]; simpl; intros acc k.
  - split; [auto|]. intros [H|[r [[] _]]]. exact H.
  - rewrite IH. destruct (po_code x) as [kx|] eqn:Ex.
    + rewrite group_insert_key_In. split.
      * intros [[->|H]|[r [Hr Er]]]; eauto.
      * intros [H|[r [[->|Hr] Er]]]; eauto.
        rewrite Ex in Er. inversion Er; subst. auto.
    + split.
      * intros [H|[r [Hr Er]]]; eauto.
      * intros [H|[r [[->|Hr] Er]]]; eauto. rewrite Ex in Er. discriminate.
Qed.

Lemma groupby_po_code_key_In l k :
  In k (map fst (groupby_po_code l)) <-> exists r, In r l /\ po_code r = Some k.
Proof.
  unfold groupby_po_code. rewrite groupby_fold_key_In. simpl.
  split; [intros [[]|H]; exact H|auto].
Qed.

Lemma po_codes_In l k :
  In k (po_codes l) <-> exists r, In r l /\ po_code r = Some k.
Proof.
  unfold po_codes. rewrite nodup_In, in_flat_map. split.
  - intros [r [Hr Hk]]. exists r. split; [exact Hr|].
    destruct (po_code r) as [k'|]; [|destruct Hk].
    destruct Hk as [->|[]]. reflexivity.
  - intros [r [Hr Ek]]. exists r. split; [exact Hr|]. rewrite Ek. left; reflexivity.
Qed.

Lemma groupby_po_code_length l :
  List.length (groupby_po_code l) = List.length (po_codes l).
Proof.
  rewrite <- (length_map fst (groupby_po_code l)).
  apply Permutation_length. apply NoDup_Permutation.
  - apply keys_ascending_NoDup, groupby_po_code_keys_ascending.
  - apply NoDup_nodup.
  - intro k. rewrite groupby_po_code_key_In, po_codes_In. reflexivity.
Qed.

(** [total_unique_po] is the number of distinct PO codes among the rows
    left by the PO-level filter. *)
Theorem total_unique_po_counts_distinct_codes file vendor total bins :
  count_unique_po_by_range file vendor = Ok (total, bins) ->
  exists l, po_filtered_rows file vendor = Ok l
            /\ total = List.length (po_codes l).
Proof.
  intro H. apply count_unique_po_by_range_Ok_inv in H.
  destruct H as (l & Hl & -> & _). exists l. split; [exact Hl|].
  unfold df_po_of. rewrite length_map. apply groupby_po_code_length.
Qed.

Lemma total_unique_po_counts_distinct_codes_witness :
  exists l, po_filtered_rows [two_po_sheet] None = Ok l
            /\ 2%nat = List.length (po_codes l).
Proof.
  apply (total_unique_po_counts_distinct_codes [two_po_sheet] None 2
           [0; 2; 0; 0; 0; 0; 0]%nat).
  reflexivity.
Defined.

Lemma filter_approved_filter df (p : Row -> bool) (l : list Row) :
  filter_approved df (filter p l) = filter p (filter_approved df l).
Proof.
  unfold filter_approved. destruct (has_column status_column df); [|reflexivity].
  apply filter_comm.
Qed.

(** The rows of the PO-level filter. *)
Lemma po_filtered_rows_of_transaction_rows file vendor l :
  po_filtered_rows file vendor = Ok l ->
  exists df rest,
    file = df :: rest
    /\ l = filter (fun r => notna (po_code r)) (transaction_rows df vendor).
Proof.
  intro H. apply po_filtered_rows_Ok_inv in H.
  destruct H as (df & rest & -> & _ & _ & -> & _). exists df, rest.
  split; [reflexivity|]. unfold transaction_rows. simpl.
  unfold dropna_jumlah_po. rewrite filter_andb. fold (dropna_jumlah (rows df)).
  rewrite filter_approved_filter.
  destruct (vendor_given vendor) as [v|]; [|reflexivity].
  unfold filter_vendor. apply filter_comm.
Qed.

Lemma group_insert_length k r groups :
  (List.length (group_insert k r groups) <= S (List.length groups))%nat.
Proof.
  induction groups as [|[k0 g0] tl IH]; simpl; [lia|].
  destruct (String.compare k k0); simpl; lia.
Qed.

Lemma groupby_fold_length l : forall acc,
  (List.length (fold_left (fun groups r =>
                             match po_code r with
                             | Some k => group_insert k r groups
                             | None => groups
                             end) l acc)
   <= List.length acc + List.length l)%nat.
Proof.
  induction l as [|x l IH]; simpl; intro acc; [lia|].
  eapply Nat.le_trans; [apply IH|].
  destruct (po_code x); [pose proof (group_insert_length s x acc)|]; lia.
Qed.

(** Unique POs never outnumber transactions: when both counters succeed
    on the same arguments, [total_unique_po] is at most
    [total_transactions]. *)
Theorem unique_po_at_most_transactions file vendor total amount bins upo pbins :
  count_transactions file vendor = Ok (total, amount, bins) ->
  count_unique_po_by_range file vendor = Ok (upo, pbins) ->
  (upo <= total)%nat.
Proof.
  intros Ht Hp.
  apply count_transactions_Ok_inv in Ht.
  destruct Ht as (df & rest & -> & _ & _ & -> & _ & _).
  apply count_unique_po_by_range_Ok_inv in Hp. destruct Hp as (l & Hl & -> & _).
  apply po_filtered_rows_of_transaction_rows in Hl.
  destruct Hl as (df' & rest' & E & ->). inversion E; subst df' rest'.
  unfold df_po_of. rewrite length_map.
  eapply Nat.le_trans; [apply (groupby_fold_length _ [])|]. simpl.
  apply filter_length_le.
Qed.

Lemma unique_po_at_most_transactions_witness :
  count_transactions [two_po_sheet] None
    = Ok (3%nat, (0 + 60000 + 50000 + 200000)%Q, [2; 1; 0; 0; 0; 0; 0]%nat)
  /\ count_unique_po_by_range [two_po_sheet] None
     = Ok (2%nat, [0; 2; 0; 0; 0; 0; 0]%nat)
  /\ (2 <= 3)%nat.
Proof.
  split; [reflexivity|]. split; [reflexivity|].
  apply (unique_po_at_most_transactions [two_po_sheet] None 3%nat
           (0 + 60000 + 50000 + 200000) [2; 1; 0; 0; 0; 0; 0]%nat
           2%nat [0; 2; 0; 0; 0; 0; 0]%nat); reflexivity.
Defined.

(** ** The breakdown table *)

(** [get_po_breakdown] and [count_unique_po_by_range] fail together, with
    the same exception, and when they succeed the table has exactly
    [total_unique_po] rows. *)
Theorem breakdown_has_total_unique_po_rows file vendor :
  (forall e, get_po_breakdown file vendor = Raise e <->
             count_unique_po_by_range file vendor = Raise e)
  /\ (forall total bins,
        count_unique_po_by_range file vendor = Ok (total, bins) ->
        exists table, get_po_breakdown file vendor = Ok table
                      /\ List.length table = total).
Proof.
  unfold get_po_breakdown, count_unique_po_by_range.
  destruct (po_filtered_rows file vendor) as [l|e0]; simpl; split.
  - intro e. split; discriminate.
  - intros total bins H. inversion H; subst. eexists. split; [reflexivity|].
    rewrite <- (Permutation_length (sort_values_desc_perm (po_summary_of l))).
    unfold po_summary_of, df_po_of. rewrite !length_map. reflexivity.
  - intro e. split; intro H; inversion H; reflexivity.
  - intros total bins H. discriminate.
Qed.

Lemma breakdown_has_total_unique_po_rows_witness :
  exists table, get_po_breakdown [two_po_sheet] None = Ok table
                /\ List.length table = 2%nat.
Proof.
  apply (proj2 (breakdown_has_total_unique_po_rows [two_po_sheet] None) 2%nat
               [0; 2; 0; 0; 0; 0; 0]%nat).
  reflexivity.
Defined.

(** *** Groups partition the rows that carry a code *)

Lemma group_insert_concat k r groups :
  Permutation (List.concat (map snd (group_insert k r groups)))
              (r :: List.concat (map snd groups)).
Proof.
  induction groups as [|[k0 g0] tl IH]; simpl; [apply Permutation_refl|].
  destruct (String.compare k k0); simpl.
  - rewrite <- app_assoc. simpl.
    apply Permutation_sym, Permutation_middle.
  - apply Permutation_refl.
  - eapply perm_trans; [apply Permutation_app_head, IH|].
    apply Permutation_sym, Permutation_middle.
Qed.

Lemma groupby_fold_concat l : forall acc,
  Permutation
    (List.concat (map snd (fold_left (fun groups r =>
                                   match po_code r with
                                   | Some k => group_insert k r groups
                                   | None => groups
                                   end) l acc)))
    (List.concat (map snd acc) ++ filter (fun r => notna (po_code r)) l).
Proof.
  induction l as [|x l IH]; simpl; intro acc.
  - rewrite app_nil_r. apply Permutation_refl.
  - eapply perm_trans; [apply IH|].
    destruct (po_code x) as [k|]; simpl; [|apply Permutation_refl].
    eapply perm_trans; [apply Permutation_app_tail, group_insert_concat|].
    simpl. apply Permutation_middle.
Qed.

(** The groups, laid end to end, are the rows that carry a PO code. *)
Lemma groupby_po_code_concat l :
  Permutation (List.concat (map snd (groupby_po_code l)))
              (filter (fun r => notna (po_code r)) l).
Proof. apply (groupby_fold_concat l []). Qed.

Lemma group_insert_nonempty k r groups :
  Forall (fun kg => snd kg <> []) groups ->
  Forall (fun kg => snd kg <> []) (group_insert k r groups).
Proof.
  induction groups as [|[k0 g0] tl IH]; simpl; intro H.
  - constructor; [discriminate|constructor].
  - inversion H as [|? ? H0 Htl]; subst.
    destruct (String.compare k k0).
    + constructor; [|exact Htl]. simpl. destruct g0; discriminate.
    + constructor; [discriminate|exact H].
    + constructor; [exact H0|apply IH, Htl].
Qed.

Lemma groupby_fold_nonempty l : forall acc,
  Forall (fun kg => snd kg <> []) acc ->
  Forall (fun kg => snd kg <> [])
         (fold_left (fun groups r =>
                       match po_code r with
                       | Some k => group_insert k r groups
                       | None => groups
                       end) l acc).
Proof.
  induction l as [|x l IH]; simpl; intros acc H; [exact H|].
  apply IH. destruct (po_code x); [apply group_insert_nonempty|]; exact H.
Qed.

Lemma groupby_po_code_nonempty l :
  Forall (fun kg => snd kg <> []) (groupby_po_code l).
Proof. apply groupby_fold_nonempty. constructor. Qed.

(** *** Sums *)

Lemma list_sum_Permutation (l l' : list nat) :
  Permutation l l' -> list_sum l = list_sum l'.
Proof. induction 1; simpl; lia. Qed.

Lemma Permutation_filter {A : Type} (p : A -> bool) (l l' : list A) :
  Permutation l l' -> Permutation (filter p l) (filter p l').
Proof.
  induction 1 as [|x l l' H IH|x y l|l l' l'' H1 IH1 H2 IH2]; simpl.
  - constructor.
  - destruct (p x); [apply perm_skip|]; exact IH.
  - destruct (p x), (p y); try apply Permutation_refl. apply perm_swap.
  - eapply perm_trans; eauto.
Qed.

(** The amounts of a frame, NaN cells skipped. *)
Lemma sum_jumlah_fold l : forall a,
  (fold_left (fun acc r => match jumlah r with
                           | Some q => acc + q
                           | None => acc
                           end) l a
   == a + sum_jumlah l)%Q.
Proof.
  unfold sum_jumlah. induction l as [|x l IH]; simpl; intro a; [ring|].
  destruct (jumlah x) as [q|].
  - rewrite (IH (a + q)%Q), (IH (0 + q)%Q). ring.
  - apply IH.
Qed.

Lemma sum_jumlah_cons r l :
  (sum_jumlah (r :: l)
   == match jumlah r with Some q => q | None => 0 end + sum_jumlah l)%Q.
Proof.
  unfold sum_jumlah at 1. simpl. destruct (jumlah r) as [q|].
  - rewrite sum_jumlah_fold. ring.
  - fold (sum_jumlah l). ring.
Qed.

Lemma sum_jumlah_app l1 l2 :
  (sum_jumlah (l1 ++ l2) == sum_jumlah l1 + sum_jumlah l2)%Q.
Proof.
  induction l1 as [|r l1 IH]; simpl.
  - unfold sum_jumlah at 2. simpl. ring.
  - rewrite !sum_jumlah_cons, IH. ring.
Qed.

Lemma sum_jumlah_Permutation l l' :
  Permutation l l' -> (sum_jumlah l == sum_jumlah l')%Q.
Proof.
  induction 1 as [|x l l' H IH|x y l|l l' l'' H1 IH1 H2 IH2].
  - reflexivity.
  - rewrite !sum_jumlah_cons, IH. reflexivity.
  - rewrite !sum_jumlah_cons. ring.
  - rewrite IH1. exact IH2.
Qed.

(** *** Sums of non-negative amounts *)

Lemma nonneg_integer_nonneg (q : Q) : nonneg_integer (Some q) -> (0 <= q)%Q.
Proof.
  intros [z [Hz E]]. inversion E; subst q.
  change 0%Q with (inject_Z 0). rewrite <- Zle_Qle. exact Hz.
Qed.

Lemma sum_jumlah_nonneg l :
  (forall r q, In r l -> jumlah r = Some q -> (0 <= q)%Q) ->
  (0 <= sum_jumlah l)%Q.
Proof.
  induction l as [|x l IH]; intro H.
  - unfold sum_jumlah. simpl. apply Qle_refl.
  - rewrite sum_jumlah_cons.
    assert (IH' : (0 <= sum_jumlah l)%Q)
      by (apply IH; intros r q Hr; apply H; right; exact Hr).
    destruct (jumlah x) as [q|] eqn:E; [|lra].
    pose proof (H x q (or_introl eq_refl) E). lra.
Qed.

(** Leaving rows out does not raise the sum. *)
Lemma sum_jumlah_filter_le (p : Row -> bool) l :
  (forall r q, In r l -> jumlah r = Some q -> (0 <= q)%Q) ->
  (sum_jumlah (filter p l) <= sum_jumlah l)%Q.
Proof.
  induction l as [|x l IH]; intro H; [apply Qle_refl|].
  assert (IH' : (sum_jumlah (filter p l) <= sum_jumlah l)%Q)
    by (apply IH; intros r q Hr; apply H; right; exact Hr).
  assert (Hx : (0 <= match jumlah x with Some q => q | None => 0 end)%Q).
  { destruct (jumlah x) as [q|] eqn:E; [|apply Qle_refl].
    apply (H x q); [left; reflexivity|exact E]. }
  simpl. destruct (p x); rewrite !sum_jumlah_cons; lra.
Qed.

(** A group adds up to at most what all the groups add up to. *)
Lemma group_sum_le_concat (groups : list (string * list Row)) k g :
  (forall r q, In r (List.concat (map snd groups)) -> jumlah r = Some q ->
               (0 <= q)%Q) ->
  In (k, g) groups ->
  (sum_jumlah g <= sum_jumlah (List.concat (map snd groups)))%Q.
Proof.
  induction groups as [|kg tl IH]; intros H Hin; [contradiction|].
  simpl in *. rewrite sum_jumlah_app.
  assert (H1 : (0 <= sum_jumlah (snd kg))%Q).
  { apply sum_jumlah_nonneg. intros r q Hr. apply H, in_or_app. left; exact Hr. }
  assert (H2 : (0 <= sum_jumlah (List.concat (map snd tl)))%Q).
  { apply sum_jumlah_nonneg. intros r q Hr. apply H, in_or_app. right; exact Hr. }
  destruct Hin as [->|Hin]; [simpl; lra|].
  assert (IH' : (sum_jumlah g <= sum_jumlah (List.concat (map snd tl)))%Q).
  { apply IH; [|exact Hin]. intros r q Hr. apply H, in_or_app. right; exact Hr. }
  lra.
Qed.

(** On a sheet of whole non-negative amounts, the rows of a successful
    [count_transactions] add up to a whole amount that is at most the sum
    of the sheet. *)
Lemma transaction_rows_sum_le df vendor :
  (forall r, In r (rows df) -> jumlah r <> None -> nonneg_integer (jumlah r)) ->
  nonneg_integer (Some (sum_jumlah (transaction_rows df vendor)))
  /\ (sum_jumlah (transaction_rows df vendor) <= sum_jumlah (rows df))%Q.
Proof.
  intro H. split.
  - apply sum_jumlah_nonneg_integer. intros r Hr. apply H.
    apply (transaction_rows_incl df vendor), Hr.
  - rewrite transaction_rows_filter. apply sum_jumlah_filter_le.
    intros r q Hr E. apply nonneg_integer_nonneg. rewrite <- E.
    apply H; [exact Hr|rewrite E; discriminate].
Qed.

Lemma fold_Qplus_acc (l : list Q) : forall a,
  (fold_left Qplus l a == a + fold_left Qplus l 0)%Q.
Proof.
  induction l as [|q l IH]; simpl; intro a; [ring|].
  rewrite (IH (a + q)%Q), (IH (0 + q)%Q). ring.
Qed.

Lemma sum_Total_Nilai_cons x t :
  (sum_Total_Nilai (x :: t) == Total_Nilai x + sum_Total_Nilai t)%Q.
Proof.
  unfold sum_Total_Nilai. simpl. rewrite fold_Qplus_acc. ring.
Qed.

Lemma sum_Total_Nilai_Permutation t t' :
  Permutation t t' -> (sum_Total_Nilai t == sum_Total_Nilai t')%Q.
Proof.
  induction 1 as [|x l l' H IH|x y l|l l' l'' H1 IH1 H2 IH2].
  - reflexivity.
  - rewrite !sum_Total_Nilai_cons, IH. reflexivity.
  - rewrite !sum_Total_Nilai_cons. ring.
  - rewrite IH1. exact IH2.
Qed.

Lemma po_filtered_rows_cells file vendor l r :
  po_filtered_rows file vendor = Ok l -> In r l ->
  notna (jumlah r) = true /\ notna (po_code r) = true.
Proof.
  intros H Hr. apply po_filtered_rows_Ok_inv in H.
  destruct H as (df & rest & _ & _ & _ & -> & _). simpl in Hr.
  assert (Hd : In r (dropna_jumlah_po (rows df))).
  { apply (filter_approved_incl df).
    destruct (vendor_given vendor); [apply filter_vendor_incl in Hr|]; exact Hr. }
  unfold dropna_jumlah_po in Hd. apply filter_In in Hd.
  destruct Hd as [_ Hd]. apply andb_prop in Hd. exact Hd.
Qed.

Lemma group_counts_concat (groups : list (string * list Row)) :
  list_sum (map (fun kg => List.length (filter (fun r => notna (jumlah r)) (snd kg)))
                groups)
  = List.length (filter (fun r => notna (jumlah r)) (List.concat (map snd groups))).
Proof.
  induction groups as [|kg tl IH]; [reflexivity|]. simpl.
  rewrite filter_app, length_app, IH. reflexivity.
Qed.

Lemma group_sums_concat (groups : list (string * list Row)) :
  (fold_left Qplus (map (fun kg => sum_jumlah (snd kg)) groups) 0
   == sum_jumlah (List.concat (map snd groups)))%Q.
Proof.
  induction groups as [|kg tl IH]; [reflexivity|]. simpl.
  rewrite fold_Qplus_acc, IH, sum_jumlah_app. ring.
Qed.

(** The TOTAL row of the breakdown sheet: the transaction counts of the
    table of [get_po_breakdown] add up to the number of rows left by the
    PO-level filter, and its total values add up to the sum of their
    [jumlah]. *)
Theorem breakdown_totals file vendor table :
  get_po_breakdown file vendor = Ok table ->
  exists l,
    po_filtered_rows file vendor = Ok l
    /\ sum_Jumlah_Transaksi table = List.length l
    /\ (sum_Total_Nilai table == sum_jumlah l)%Q.
Proof.
  unfold get_po_breakdown.
  destruct (po_filtered_rows file vendor) as [l|e] eqn:Hl; simpl; [|discriminate].
  intro H. inversion H; subst table; clear H. exists l. split; [reflexivity|].
  pose proof (sort_values_desc_perm (po_summary_of l)) as Hperm.
  assert (Hall : filter (fun r => notna (po_code r)) l = l).
  { apply filter_all. intros r Hr.
    apply (po_filtered_rows_cells file vendor l r Hl Hr). }
  assert (Hallj : filter (fun r => notna (jumlah r)) l = l).
  { apply filter_all. intros r Hr.
    apply (po_filtered_rows_cells file vendor l r Hl Hr). }
  split.
  - unfold sum_Jumlah_Transaksi.
    rewrite <- (list_sum_Permutation _ _ (Permutation_map Jumlah_Transaksi Hperm)).
    unfold po_summary_of. rewrite map_map. simpl.
    rewrite group_counts_concat.
    rewrite (Permutation_length
               (Permutation_filter _ _ _ (groupby_po_code_concat l))).
    rewrite Hall, Hallj. reflexivity.
  - rewrite <- (sum_Total_Nilai_Permutation _ _ Hperm).
    unfold sum_Total_Nilai, po_summary_of. rewrite map_map. simpl.
    rewrite group_sums_concat.
    rewrite (sum_jumlah_Permutation _ _ (groupby_po_code_concat l)).
    rewrite Hall. reflexivity.
Qed.

Lemma breakdown_totals_witness :
  exists l,
    po_filtered_rows [two_po_sheet] None = Ok l
    /\ sum_Jumlah_Transaksi
         [mkBreakdown "PO2" 1 (0 + 200000) "100 Ribu - 500 Ribu";
          mkBreakdown "PO1" 2 (0 + 60000 + 50000) "100 Ribu - 500 Ribu"]
       = List.length l
    /\ (sum_Total_Nilai
          [mkBreakdown "PO2" 1 (0 + 200000) "100 Ribu - 500 Ribu";
           mkBreakdown "PO1" 2 (0 + 60000 + 50000) "100 Ribu - 500 Ribu"]
        == sum_jumlah l)%Q.
Proof.
  apply (breakdown_totals [two_po_sheet] None). reflexivity.
Defined.

Lemma get_range_In_labels (q : Q) : In (get_range q) ranges_labels.
Proof. unfold get_range, ranges_labels. qcases; simpl; tauto. Qed.

(** Every row of the breakdown table stands for a PO of at least one
    transaction, carries the label [get_range] gives its total, which is
    one of the seven labels, and no PO code occurs twice. *)
Theorem breakdown_rows_well_formed file vendor table :
  get_po_breakdown file vendor = Ok table ->
  NoDup (map PO_Code table)
  /\ Forall (fun x => (1 <= Jumlah_Transaksi x)%nat
                      /\ Rentang x = get_range (Total_Nilai x)
                      /\ In (Rentang x) ranges_labels) table.
Proof.
  unfold get_po_breakdown.
  destruct (po_filtered_rows file vendor) as [l|e] eqn:Hl; simpl; [|discriminate].
  intro H. inversion H; subst table; clear H.
  pose proof (sort_values_desc_perm (po_summary_of l)) as Hperm.
  split.
  - eapply Permutation_NoDup; [apply Permutation_map, Hperm|].
    unfold po_summary_of. rewrite map_map. simpl.
    apply keys_ascending_NoDup, groupby_po_code_keys_ascending.
  - eapply Permutation_Forall; [exact Hperm|].
    unfold po_summary_of. apply Forall_map. apply Forall_forall.
    intros [k g] Hkg. simpl. split; [|split].
    + assert (Hg : filter (fun r => notna (jumlah r)) g = g).
      { apply filter_all. intros r Hr.
        apply (po_filtered_rows_cells file vendor l r Hl).
        eapply groupby_po_code_rows; eauto. }
      rewrite Hg.
      pose proof (proj1 (Forall_forall _ _) (groupby_po_code_nonempty l) _ Hkg) as Hne.
      simpl in Hne. destruct g; [contradiction|simpl; lia].
    + reflexivity.
    + apply get_range_In_labels.
Qed.

Lemma breakdown_rows_well_formed_witness :
  NoDup (map PO_Code
           [mkBreakdown "PO2" 1 (0 + 200000) "100 Ribu - 500 Ribu";
            mkBreakdown "PO1" 2 (0 + 60000 + 50000) "100 Ribu - 500 Ribu"])
  /\ Forall (fun x => (1 <= Jumlah_Transaksi x)%nat
                      /\ Rentang x = get_range (Total_Nilai x)
                      /\ In (Rentang x) ranges_labels)
            [mkBreakdown "PO2" 1 (0 + 200000) "100 Ribu - 500 Ribu";
             mkBreakdown "PO1" 2 (0 + 60000 + 50000) "100 Ribu - 500 Ribu"].
Proof.
  apply (breakdown_rows_well_formed [two_po_sheet] None). reflexivity.
Defined.

(** *** PO counts and breakdown labels *)

Lemma count_matches_label (p : option Q -> bool) (lab : string)
      (groups : list (string * list Row)) :
  (forall z, (0 <= z)%Z ->
     p (Some (inject_Z z)) = String.eqb (get_range (inject_Z z)) lab) ->
  Forall (fun kg => nonneg_integer (Some (sum_jumlah (snd kg)))) groups ->
  count_where (fun kv : string * Q => Some (snd kv)) p
              (map (fun kg => (fst kg, sum_jumlah (snd kg))) groups)
  = List.length
      (filter (fun x => String.eqb (Rentang x) lab)
              (map (fun kg =>
                      mkBreakdown (fst kg)
                        (List.length (filter (fun r => notna (jumlah r)) (snd kg)))
                        (sum_jumlah (snd kg))
                        (get_range (sum_jumlah (snd kg))))
                   groups)).
Proof.
  intros Hp. unfold count_where.
  induction 1 as [|kg tl [z [Hz Ez]] Htl IH]; [reflexivity|].
  inversion Ez as [Ez']. rewrite !map_cons. cbn [filter snd Rentang].
  rewrite Ez', (Hp z Hz).
  destruct (String.eqb (get_range (inject_Z z)) lab); cbn [List.length];
    rewrite IH; reflexivity.
Qed.

Ltac label_case :=
  let z := fresh "z" in
  let Hz := fresh "Hz" in
  intros z Hz; unfold in_range, above_50M, get_range, inject_Z;
  rewrite !Qle_bool_integers; zcases; reflexivity.

(** On a sheet of whole non-negative amounts, the total of every PO is a
    whole amount that is at most the sum of the sheet. *)
Lemma po_totals_le_sheet df rest vendor l k g :
  po_filtered_rows (df :: rest) vendor = Ok l ->
  (forall r, In r (rows df) -> jumlah r <> None -> nonneg_integer (jumlah r)) ->
  In (k, g) (groupby_po_code l) ->
  nonneg_integer (Some (sum_jumlah g))
  /\ (sum_jumlah g <= sum_jumlah (rows df))%Q.
Proof.
  intros Hl Hint Hkg.
  destruct (po_filtered_rows_of_transaction_rows _ _ _ Hl)
    as (df' & rest' & E & El).
  inversion E; subst df' rest'; clear E.
  assert (Hin : forall r, In r l -> In r (rows df)).
  { intros r Hr. rewrite El in Hr. apply filter_In in Hr.
    apply (transaction_rows_incl df vendor), Hr. }
  assert (Hpos : forall r q, In r l -> jumlah r = Some q -> (0 <= q)%Q).
  { intros r q Hr Eq. apply nonneg_integer_nonneg. rewrite <- Eq.
    apply Hint; [apply Hin, Hr|rewrite Eq; discriminate]. }
  split.
  - apply sum_jumlah_nonneg_integer. intros r Hr.
    apply Hint, Hin. eapply groupby_po_code_rows; eauto.
  - pose proof (groupby_po_code_concat l) as Hperm.
    assert (H1 : (sum_jumlah g
                  <= sum_jumlah (List.concat (map snd (groupby_po_code l))))%Q).
    { apply (group_sum_le_concat _ k g); [|exact Hkg].
      intros r q Hr. apply Hpos.
      apply (Permutation_in _ Hperm) in Hr. apply filter_In in Hr. apply Hr. }
    rewrite (sum_jumlah_Permutation _ _ Hperm) in H1.
    assert (H2 : (sum_jumlah (filter (fun r => notna (po_code r)) l)
                  <= sum_jumlah l)%Q)
      by (apply sum_jumlah_filter_le; exact Hpos).
    assert (H3 : (sum_jumlah l <= sum_jumlah (transaction_rows df vendor))%Q).
    { rewrite El. apply sum_jumlah_filter_le. intros r q Hr Eq.
      apply nonneg_integer_nonneg. rewrite <- Eq.
      apply Hint; [apply (transaction_rows_incl df vendor), Hr
                  |rewrite Eq; discriminate]. }
    destruct (transaction_rows_sum_le df vendor Hint) as [_ H4].
    lra.
Qed.

(** On sheets whose amounts are whole and non-negative and add up to at
    most 2^53, the total of every PO of the breakdown table is a whole
    number of at most 2^53 (so it is the same number in int64, in float64
    and here), and each of the seven counts of [count_unique_po_by_range]
    is the number of rows of the breakdown table that carry the label of
    that range. *)
Theorem po_counts_match_breakdown_labels file vendor total bins table :
  count_unique_po_by_range file vendor = Ok (total, bins) ->
  get_po_breakdown file vendor = Ok table ->
  (forall df r, In df file -> In r (rows df) -> jumlah r <> None ->
                nonneg_integer (jumlah r)) ->
  (forall df, In df file -> (sum_jumlah (rows df) <= max_exact_sum)%Q) ->
  Forall (fun x => nonneg_integer (Some (Total_Nilai x))
                   /\ (Total_Nilai x <= max_exact_sum)%Q) table
  /\ bins = map (fun label =>
                   List.length
                     (filter (fun x => String.eqb (Rentang x) label) table))
                ranges_labels.
Proof.
  intros Hc Hb Hint Hsum.
  apply count_unique_po_by_range_Ok_inv in Hc. destruct Hc as (l & Hl & _ & ->).
  unfold get_po_breakdown in Hb. rewrite Hl in Hb. simpl in Hb.
  inversion Hb; subst table; clear Hb.
  destruct (po_filtered_rows_incl _ _ _ Hl) as (df & rest & -> & Hincl).
  assert (Hint' : forall r, In r (rows df) -> jumlah r <> None ->
                            nonneg_integer (jumlah r))
    by (intros r Hr; apply (Hint df r (or_introl eq_refl) Hr)).
  assert (Hgroups : Forall (fun kg => nonneg_integer (Some (sum_jumlah (snd kg))))
                           (groupby_po_code l)).
  { apply Forall_forall. intros [k g] Hkg. simpl.
    apply (po_totals_le_sheet df rest vendor l k g Hl Hint' Hkg). }
  pose proof (sort_values_desc_perm (po_summary_of l)) as Hperm.
  split.
  - eapply Permutation_Forall; [exact Hperm|].
    unfold po_summary_of. apply Forall_map, Forall_forall.
    intros [k g] Hkg. simpl.
    destruct (po_totals_le_sheet df rest vendor l k g Hl Hint' Hkg) as [Hw Hle].
    split; [exact Hw|].
    eapply Qle_trans; [exact Hle|apply Hsum; left; reflexivity].
  - unfold range_counts, ranges, ranges_labels. simpl.
    repeat match goal with
           | |- _ :: _ = _ :: _ => apply (f_equal2 cons)
           end; try reflexivity;
      rewrite <- (Permutation_length (Permutation_filter _ _ _ Hperm));
      unfold df_po_of, po_summary_of;
      (apply count_matches_label; [label_case|exact Hgroups]).
Qed.

Lemma po_counts_match_breakdown_labels_witness :
  Forall (fun x => nonneg_integer (Some (Total_Nilai x))
                   /\ (Total_Nilai x <= max_exact_sum)%Q)
         [mkBreakdown "PO4" 1 (0 + 50000001) "Di atas 50 Juta";
          mkBreakdown "PO3" 1 (0 + 50000000) "10 Juta - 50 Juta";
          mkBreakdown "PO2" 1 (0 + 100001) "100 Ribu - 500 Ribu";
          mkBreakdown "PO1" 1 (0 + 100000) "0 - 100 Ribu"]
  /\ [1; 1; 0; 0; 0; 1; 1]%nat
     = map (fun label =>
              List.length
                (filter (fun x => String.eqb (Rentang x) label)
                        [mkBreakdown "PO4" 1 (0 + 50000001) "Di atas 50 Juta";
                         mkBreakdown "PO3" 1 (0 + 50000000) "10 Juta - 50 Juta";
                         mkBreakdown "PO2" 1 (0 + 100001) "100 Ribu - 500 Ribu";
                         mkBreakdown "PO1" 1 (0 + 100000) "0 - 100 Ribu"]))
           ranges_labels.
Proof.
  apply (po_counts_match_breakdown_labels [boundary_sheet] None 4%nat);
    [reflexivity | reflexivity | |].
  - intros df r [<-|[]] Hr _. simpl in Hr.
    destruct Hr as [<-|[<-|[<-|[<-|[]]]]].
    + exists 100000%Z. split; [lia|reflexivity].
    + exists 100001%Z. split; [lia|reflexivity].
    + exists 50000000%Z. split; [lia|reflexivity].
    + exists 50000001%Z. split; [lia|reflexivity].
  - intros df [<-|[]]. apply Qle_bool_imp_le. reflexivity.
Defined.

(** ** Shape of the counts *)

Lemma range_counts_shape {A : Type} (value : A -> option Q) (l : list A) :
  List.length (range_counts value l) = 7%nat
  /\ Forall (fun c => (c <= List.length l)%nat) (range_counts value l).
Proof.
  split; [reflexivity|].
  unfold range_counts, ranges. simpl.
  repeat (constructor; [apply count_where_le|]). constructor.
Qed.

(** Both counters return seven counts, none above the total, and their
    sum is at most the total. *)
Theorem counts_within_total file vendor :
  (forall total amount bins,
     count_transactions file vendor = Ok (total, amount, bins) ->
     List.length bins = 7%nat
     /\ Forall (fun c => (c <= total)%nat) bins
     /\ (list_sum bins <= total)%nat)
  /\ (forall total bins,
        count_unique_po_by_range file vendor = Ok (total, bins) ->
        List.length bins = 7%nat
        /\ Forall (fun c => (c <= total)%nat) bins
        /\ (list_sum bins <= total)%nat).
Proof.
  split.
  - intros total amount bins H.
    pose proof (count_transactions_bins_le _ _ _ _ _ H) as Hle.
    apply count_transactions_Ok_inv in H.
    destruct H as (df & rest & _ & _ & _ & -> & _ & ->).
    destruct (range_counts_shape jumlah (transaction_rows df vendor)) as [H1 H2].
    auto.
  - intros total bins H.
    pose proof (count_unique_po_bins_le _ _ _ _ H) as Hle.
    apply count_unique_po_by_range_Ok_inv in H. destruct H as (l & _ & -> & ->).
    destruct (range_counts_shape (fun kv : string * Q => Some (snd kv)) (df_po_of l))
      as [H1 H2].
    auto.
Qed.

Lemma counts_within_total_witness :
  List.length [2; 1; 0; 0; 0; 0; 0]%nat = 7%nat
  /\ Forall (fun c => (c <= 3)%nat) [2; 1; 0; 0; 0; 0; 0]%nat
  /\ (list_sum [2; 1; 0; 0; 0; 0; 0]%nat <= 3)%nat.
Proof.
  apply (proj1 (counts_within_total [two_po_sheet] None) 3%nat
               (0 + 60000 + 50000 + 200000)%Q).
  reflexivity.
Defined.

(** app.py: the four insight groups split the seven counts, so together
    they never exceed the total. *)
Theorem insight_counts_split_the_bins file vendor total amount bins :
  count_transactions file vendor = Ok (total, amount, bins) ->
  let '(small, medium, large, xlarge) := insight_counts bins in
  (small + medium + large + xlarge = list_sum bins
   /\ small + medium + large + xlarge <= total)%nat.
Proof.
  intro H. pose proof (count_transactions_bins_le _ _ _ _ _ H) as Hle.
  apply count_transactions_Ok_inv in H.
  destruct H as (df & rest & _ & _ & _ & -> & _ & ->).
  revert Hle. unfold range_counts, ranges, insight_counts. simpl. lia.
Qed.

Lemma insight_counts_split_the_bins_witness :
  let '(small, medium, large, xlarge) :=
    insight_counts [2; 1; 0; 0; 0; 0; 0]%nat in
  (small + medium + large + xlarge = list_sum [2; 1; 0; 0; 0; 0; 0]
   /\ small + medium + large + xlarge <= 3)%nat.
Proof.
  apply (insight_counts_split_the_bins [two_po_sheet] None 3%nat
           (0 + 60000 + 50000 + 200000)%Q).
  reflexivity.
Defined.

(** ** An empty vendor string *)

(** [if vendor:] takes the empty string for no vendor: every function
    gives with it what it gives with [None]. *)
Theorem empty_vendor_is_no_vendor file :
  count_transactions file (Some EmptyString) = count_transactions file None
  /\ count_unique_po_by_range file (Some EmptyString)
     = count_unique_po_by_range file None
  /\ get_po_breakdown file (Some EmptyString) = get_po_breakdown file None
  /\ get_transaction_dataframe file (Some EmptyString)
     = get_transaction_dataframe file None
  /\ get_range_statistics file (Some EmptyString) = get_range_statistics file None
  /\ get_unique_po_statistics file (Some EmptyString)
     = get_unique_po_statistics file None.
Proof. repeat split; reflexivity. Qed.

(** ** The percentage column *)

Lemma round_half_even_bounds (y : Q) (n : Z) :
  (0 <= y)%Q -> (y <= inject_Z n)%Q ->
  (0 <= round_half_even y <= n)%Z.
Proof.
  intros H0 Hn. unfold round_half_even.
  pose proof (Qfloor_le y) as Hf. pose proof (Qlt_floor y) as Hf'.
  set (f := Qfloor y) in *.
  assert (Hf0 : (0 <= f)%Z).
  { assert (H : (inject_Z 0 < inject_Z (f + 1))%Q)
      by (eapply Qle_lt_trans; [exact H0|exact Hf']).
    rewrite <- Zlt_Qlt in H. lia. }
  assert (Hfn : (f <= n)%Z).
  { rewrite Zle_Qle. eapply Qle_trans; eauto. }
  assert (Hup : (inject_Z f < y)%Q -> (f + 1 <= n)%Z).
  { intro H. assert (H' : (inject_Z f < inject_Z n)%Q)
      by (eapply Qlt_le_trans; eauto).
    rewrite <- Zlt_Qlt in H'. lia. }
  destruct ((y - inject_Z f) ?= (1 # 2))%Q eqn:E.
  - destruct (Z.even f); [lia|].
    apply Qeq_alt in E. assert (H : (inject_Z f < y)%Q) by lra.
    specialize (Hup H). lia.
  - lia.
  - apply Qgt_alt in E. assert (H : (inject_Z f < y)%Q) by lra.
    specialize (Hup H). lia.
Qed.

Lemma round2_bounds (x : Q) :
  (0 <= x)%Q -> (x <= 100)%Q -> (0 <= round2 x)%Q /\ (round2 x <= 100)%Q.
Proof.
  intros H0 H1. unfold round2.
  destruct (round_half_even_bounds (x * 100) 10000) as [Ha Hb].
  - lra.
  - change (inject_Z 10000) with 10000%Q. lra.
  - rewrite Zle_Qle in Ha, Hb.
    change (inject_Z 0) with 0%Q in Ha. change (inject_Z 10000) with 10000%Q in Hb.
    set (r := inject_Z (round_half_even (x * 100))) in *. split.
    + apply Qle_shift_div_l; [reflexivity|]. lra.
    + apply Qle_shift_div_r; [reflexivity|]. lra.
Qed.

Lemma percent_cell_ok (count total : nat) :
  (0 < total)%nat -> (count <= total)%nat -> percentage_ok (percent_cell count total).
Proof.
  intros Ht Hc. unfold percent_cell, series_div.
  destruct (Nat.eqb_spec total 0) as [E|_]; [lia|].
  eexists. split; [reflexivity|].
  set (c := inject_Z (Z.of_nat count)). set (t := inject_Z (Z.of_nat total)).
  assert (Htq : (0 < t)%Q).
  { unfold t. change 0%Q with (inject_Z 0). rewrite <- Zlt_Qlt. lia. }
  assert (Hcq : (0 <= c)%Q).
  { unfold c. change 0%Q with (inject_Z 0). rewrite <- Zle_Qle. lia. }
  assert (Hct : (c <= t)%Q).
  { unfold c, t. rewrite <- Zle_Qle. lia. }
  assert (Hd0 : (0 <= c / t)%Q).
  { apply Qle_shift_div_l; [exact Htq|]. lra. }
  assert (Hd1 : (c / t <= 1)%Q).
  { apply Qle_shift_div_r; [exact Htq|]. lra. }
  apply round2_bounds; lra.
Qed.

Lemma stats_rows_columns {A : Type} (value : A -> option Q) (l : list A)
      (pct : string * nat -> FloatCell) :
  let table := map (fun lc => mkStats (fst lc) (snd lc) (pct lc))
                   (combine ranges_labels (range_counts value l)) in
  map stat_Rentang table = ranges_labels
  /\ map stat_Jumlah table = range_counts value l
  /\ map stat_Persentase table
     = map pct (combine ranges_labels (range_counts value l)).
Proof. repeat split; reflexivity. Qed.

(** The PO statistics table has the seven labels in range order, the
    seven counts beside them, and in every percentage cell a number
    between 0 and 100, whatever the total. *)
Theorem get_unique_po_statistics_table file vendor table :
  get_unique_po_statistics file vendor = Ok table ->
  exists total bins,
    count_unique_po_by_range file vendor = Ok (total, bins)
    /\ map stat_Rentang table = ranges_labels
    /\ map stat_Jumlah table = bins
    /\ Forall (fun r => percentage_ok (stat_Persentase r)) table.
Proof.
  unfold get_unique_po_statistics.
  destruct (count_unique_po_by_range file vendor) as [[total bins]|e] eqn:Hc;
    simpl; [|discriminate].
  intro H. inversion H; subst table; clear H. exists total, bins.
  split; [reflexivity|].
  apply count_unique_po_by_range_Ok_inv in Hc. destruct Hc as (l & _ & -> & ->).
  destruct (range_counts_shape (fun kv : string * Q => Some (snd kv)) (df_po_of l))
    as [_ Hall].
  split; [reflexivity|]. split; [reflexivity|].
  apply Forall_map. apply Forall_forall. intros [lab c] Hin. simpl.
  apply (in_combine_r ranges_labels
           (range_counts (fun kv : string * Q => Some (snd kv)) (df_po_of l)) lab c)
    in Hin.
  pose proof (proj1 (Forall_forall _ _) Hall c Hin) as Hle.
  destruct (Nat.ltb_spec 0 (List.length (df_po_of l))) as [Hpos|Hz].
  - apply percent_cell_ok; assumption.
  - exists 0%Q. split; [reflexivity|]. split; [apply Qle_refl|discriminate].
Qed.

Lemma get_unique_po_statistics_table_witness :
  exists total bins,
    count_unique_po_by_range [unapproved_sheet] None = Ok (total, bins)
    /\ map stat_Rentang
         (map (fun lc => mkStats (fst lc) (snd lc) (Num 0))
              (combine ranges_labels [0; 0; 0; 0; 0; 0; 0]%nat)) = ranges_labels
    /\ map stat_Jumlah
         (map (fun lc => mkStats (fst lc) (snd lc) (Num 0))
              (combine ranges_labels [0; 0; 0; 0; 0; 0; 0]%nat)) = bins
    /\ Forall (fun r => percentage_ok (stat_Persentase r))
              (map (fun lc => mkStats (fst lc) (snd lc) (Num 0))
                   (combine ranges_labels [0; 0; 0; 0; 0; 0; 0]%nat)).
Proof.
  apply (get_unique_po_statistics_table [unapproved_sheet] None). reflexivity.
Defined.

(** The transaction statistics table has the seven labels in range
    order and the seven counts beside them; its percentage cells hold
    numbers between 0 and 100 whenever the total is positive, which it is
    whenever a vendor is given. *)
Theorem get_range_statistics_table file vendor table :
  get_range_statistics file vendor = Ok table ->
  exists total amount bins,
    count_transactions file vendor = Ok (total, amount, bins)
    /\ map stat_Rentang table = ranges_labels
    /\ map stat_Jumlah table = bins
    /\ ((0 < total)%nat ->
        Forall (fun r => percentage_ok (stat_Persentase r)) table)
    /\ (vendor_given vendor <> None -> (0 < total)%nat).
Proof.
  unfold get_range_statistics.
  destruct (count_transactions file vendor) as [[[total amount] bins]|e] eqn:Hc;
    simpl; [|discriminate].
  intro H. inversion H; subst table; clear H. exists total, amount, bins.
  split; [reflexivity|].
  destruct file as [|df rest]; [discriminate Hc|].
  pose proof (count_transactions_Ok_nonempty df rest vendor _ Hc) as Hne.
  apply count_transactions_Ok_inv in Hc.
  destruct Hc as (df0 & rest0 & E & _ & _ & -> & _ & ->).
  inversion E; subst df0 rest0.
  destruct (range_counts_shape jumlah (transaction_rows df vendor)) as [_ Hall].
  split; [reflexivity|]. split; [reflexivity|]. split.
  - intro Hpos. apply Forall_map. apply Forall_forall. intros [lab c] Hin. simpl.
    apply (in_combine_r ranges_labels
             (range_counts jumlah (transaction_rows df vendor)) lab c) in Hin.
    apply percent_cell_ok; [exact Hpos|].
    exact (proj1 (Forall_forall _ _) Hall c Hin).
  - intro Hg. specialize (Hne Hg).
    destruct (transaction_rows df vendor); [contradiction|simpl; lia].
Qed.

Lemma get_range_statistics_table_witness :
  exists table,
    get_range_statistics [two_po_sheet] (Some "X") = Ok table
    /\ count_transactions [two_po_sheet] (Some "X")
       = Ok (3%nat, (0 + 60000 + 50000 + 200000)%Q, [2; 1; 0; 0; 0; 0; 0]%nat)
    /\ map stat_Rentang table = ranges_labels
    /\ map stat_Jumlah table = [2; 1; 0; 0; 0; 0; 0]%nat
    /\ vendor_given (Some "X") <> None
    /\ (0 < 3)%nat
    /\ Forall (fun r => percentage_ok (stat_Persentase r)) table.
Proof.
  eexists. split; [reflexivity|].
  destruct (get_range_statistics_table [two_po_sheet] (Some "X") _ eq_refl)
    as (total & amount & bins & Hc & Hlab & Hbins & Hpct & Hpos).
  assert (Hg : vendor_given (Some "X") <> None) by discriminate.
  assert (E : (total, amount, bins)
              = (3%nat, (0 + 60000 + 50000 + 200000)%Q, [2; 1; 0; 0; 0; 0; 0]%nat))
    by (change (count_transactions [two_po_sheet] (Some "X"))
          with (Ok (3%nat, (0 + 60000 + 50000 + 200000)%Q,
                    [2; 1; 0; 0; 0; 0; 0]%nat)) in Hc;
        inversion Hc; reflexivity).
  inversion E as [[Etotal Eamount Ebins]].
  rewrite Etotal in Hpos. rewrite Ebins in Hbins.
  split; [reflexivity|]. split; [exact Hlab|]. split; [exact Hbins|].
  split; [exact Hg|]. split; [exact (Hpos Hg)|].
  apply Hpct. rewrite Etotal. exact (Hpos Hg).
Defined.

(** ** The key metrics *)

Lemma jumlah_max_fold l : forall m,
  exists mx,
    fold_left (fun acc r =>
                 match jumlah r, acc with
                 | Some q, Some m => Some (if Qle_bool m q then q else m)
                 | Some q, None => Some q
                 | None, _ => acc
                 end) l (Some m) = Some mx
    /\ (m <= mx)%Q
    /\ forall r q, In r l -> jumlah r = Some q -> (q <= mx)%Q.
Proof.
  induction l as [|x l IH]; simpl; intro m.
  - exists m. split; [reflexivity|]. split; [apply Qle_refl|]. intros r q [].
  - destruct (jumlah x) as [qx|] eqn:Ex.
    + destruct (IH (if Qle_bool m qx then qx else m)) as (mx & Hf & Hm & Hall).
      exists mx. split; [exact Hf|].
      assert (Hboth : (m <= mx)%Q /\ (qx <= mx)%Q).
      { destruct (Qle_bool m qx) eqn:E.
        - apply Qle_bool_iff in E. split; [eapply Qle_trans; eauto|exact Hm].
        - apply Qle_bool_false_iff in E. split; [exact Hm|].
          eapply Qle_trans; [apply Qlt_le_weak, E|exact Hm]. }
      split; [tauto|]. intros r q [<-|Hr] Eq; [|eauto].
      rewrite Ex in Eq. inversion Eq; subst. tauto.
    + destruct (IH m) as (mx & Hf & Hm & Hall). exists mx.
      split; [exact Hf|]. split; [exact Hm|].
      intros r q [<-|Hr] Eq; [rewrite Ex in Eq; discriminate|eauto].
Qed.

Lemma jumlah_min_fold l : forall m,
  exists mn,
    fold_left (fun acc r =>
                 match jumlah r, acc with
                 | Some q, Some m => Some (if Qle_bool q m then q else m)
                 | Some q, None => Some q
                 | None, _ => acc
                 end) l (Some m) = Some mn
    /\ (mn <= m)%Q
    /\ forall r q, In r l -> jumlah r = Some q -> (mn <= q)%Q.
Proof.
  induction l as [|x l IH]; simpl; intro m.
  - exists m. split; [reflexivity|]. split; [apply Qle_refl|]. intros r q [].
  - destruct (jumlah x) as [qx|] eqn:Ex.
    + destruct (IH (if Qle_bool qx m then qx else m)) as (mn & Hf & Hm & Hall).
      exists mn. split; [exact Hf|].
      assert (Hboth : (mn <= m)%Q /\ (mn <= qx)%Q).
      { destruct (Qle_bool qx m) eqn:E.
        - apply Qle_bool_iff in E. split; [eapply Qle_trans; eauto|exact Hm].
        - apply Qle_bool_false_iff in E. split; [exact Hm|].
          eapply Qle_trans; [exact Hm|apply Qlt_le_weak, E]. }
      split; [tauto|]. intros r q [<-|Hr] Eq; [|eauto].
      rewrite Ex in Eq. inversion Eq; subst. tauto.
    + destruct (IH m) as (mn & Hf & Hm & Hall). exists mn.
      split; [exact Hf|]. split; [exact Hm|].
      intros r q [<-|Hr] Eq; [rewrite Ex in Eq; discriminate|eauto].
Qed.

Lemma sum_jumlah_le_max l mx :
  (forall r, In r l -> jumlah r <> None) ->
  (forall r q, In r l -> jumlah r = Some q -> (q <= mx)%Q) ->
  (sum_jumlah l <= inject_Z (Z.of_nat (List.length l)) * mx)%Q.
Proof.
  induction l as [|x l IH]; intros Hn Hall.
  - unfold sum_jumlah. simpl. change (inject_Z 0) with 0%Q. lra.
  - rewrite sum_jumlah_cons.
    assert (IH' : (sum_jumlah l <= inject_Z (Z.of_nat (List.length l)) * mx)%Q).
    { apply IH; intros; [apply Hn|eapply Hall]; try right; eauto. }
    destruct (jumlah x) as [q|] eqn:E;
      [|exfalso; apply (Hn x); [left; reflexivity|exact E]].
    assert (Hq : (q <= mx)%Q) by (apply (Hall x q); [left; reflexivity|exact E]).
    change (List.length (x :: l)) with (S (List.length l)).
    rewrite Nat2Z.inj_succ. unfold Z.succ. rewrite inject_Z_plus.
    change (inject_Z 1) with 1%Q. lra.
Qed.

Lemma sum_jumlah_ge_min l mn :
  (forall r, In r l -> jumlah r <> None) ->
  (forall r q, In r l -> jumlah r = Some q -> (mn <= q)%Q) ->
  (inject_Z (Z.of_nat (List.length l)) * mn <= sum_jumlah l)%Q.
Proof.
  induction l as [|x l IH]; intros Hn Hall.
  - unfold sum_jumlah. simpl. change (inject_Z 0) with 0%Q. lra.
  - rewrite sum_jumlah_cons.
    assert (IH' : (inject_Z (Z.of_nat (List.length l)) * mn <= sum_jumlah l)%Q).
    { apply IH; intros; [apply Hn|eapply Hall]; try right; eauto. }
    destruct (jumlah x) as [q|] eqn:E;
      [|exfalso; apply (Hn x); [left; reflexivity|exact E]].
    assert (Hq : (mn <= q)%Q) by (apply (Hall x q); [left; reflexivity|exact E]).
    change (List.length (x :: l)) with (S (List.length l)).
    rewrite Nat2Z.inj_succ. unfold Z.succ. rewrite inject_Z_plus.
    change (inject_Z 1) with 1%Q. lra.
Qed.

(** The largest and the smallest value are values of the column. *)
Lemma jumlah_max_fold_In l : forall m mx,
  fold_left (fun acc r =>
               match jumlah r, acc with
               | Some q, Some m => Some (if Qle_bool m q then q else m)
               | Some q, None => Some q
               | None, _ => acc
               end) l (Some m) = Some mx ->
  mx = m \/ exists r, In r l /\ jumlah r = Some mx.
Proof.
  induction l as [|x l IH]; simpl; intros m mx H.
  - inversion H. left; reflexivity.
  - destruct (jumlah x) as [qx|] eqn:Ex; apply IH in H;
      destruct H as [->|(r & Hr & Er)];
      try (right; exists r; split; [right; exact Hr|exact Er]).
    + destruct (Qle_bool m qx);
        [right; exists x; split; [left; reflexivity|exact Ex]|left; reflexivity].
    + left; reflexivity.
Qed.

Lemma jumlah_min_fold_In l : forall m mn,
  fold_left (fun acc r =>
               match jumlah r, acc with
               | Some q, Some m => Some (if Qle_bool q m then q else m)
               | Some q, None => Some q
               | None, _ => acc
               end) l (Some m) = Some mn ->
  mn = m \/ exists r, In r l /\ jumlah r = Some mn.
Proof.
  induction l as [|x l IH]; simpl; intros m mn H.
  - inversion H. left; reflexivity.
  - destruct (jumlah x) as [qx|] eqn:Ex; apply IH in H;
      destruct H as [->|(r & Hr & Er)];
      try (right; exists r; split; [right; exact Hr|exact Er]).
    + destruct (Qle_bool qx m);
        [right; exists x; split; [left; reflexivity|exact Ex]|left; reflexivity].
    + left; reflexivity.
Qed.

(** An amount is at most the sum of a column of non-negative amounts. *)
Lemma jumlah_le_sum l r q :
  (forall r q, In r l -> jumlah r = Some q -> (0 <= q)%Q) ->
  In r l -> jumlah r = Some q -> (q <= sum_jumlah l)%Q.
Proof.
  induction l as [|x l IH]; intros H Hin E; [contradiction|].
  rewrite sum_jumlah_cons.
  assert (Hl : (0 <= sum_jumlah l)%Q)
    by (apply sum_jumlah_nonneg; intros r' q' Hr'; apply H; right; exact Hr').
  destruct Hin as [->|Hin].
  - rewrite E. lra.
  - assert (IH' : (q <= sum_jumlah l)%Q)
      by (apply IH; [intros r' q' Hr'; apply H; right; exact Hr'|exact Hin|exact E]).
    assert (Hx : (0 <= match jumlah x with Some q => q | None => 0 end)%Q).
    { destruct (jumlah x) as [qx|] eqn:Ex; [|apply Qle_refl].
      apply (H x qx); [left; reflexivity|exact Ex]. }
    lra.
Qed.

(** The key metrics of the dashboard, on sheets whose amounts are whole
    and non-negative and add up to at most 2^53.  On such a sheet the
    total amount of [count_transactions] is a whole number of at most
    2^53, so it is the same number in int64, in float64 and here.  With
    no transaction the average is 0 (nothing is divided) and the export
    has no largest or smallest amount; otherwise the [jumlah] column of
    the export has a smallest and a largest value, both are amounts of
    rows of the export (whole numbers of at most 2^53), and the average
    of the figures of [count_transactions], as an exact quotient, lies
    between them.  (The program's average is that quotient rounded to
    float64; the smallest and the largest amount are float64 values, so
    the rounded quotient lies between them as well.) *)
Theorem average_between_min_and_max file vendor total amount bins out :
  count_transactions file vendor = Ok (total, amount, bins) ->
  get_transaction_dataframe file vendor = Ok out ->
  (forall df r, In df file -> In r (rows df) -> jumlah r <> None ->
                nonneg_integer (jumlah r)) ->
  (forall df, In df file -> (sum_jumlah (rows df) <= max_exact_sum)%Q) ->
  nonneg_integer (Some amount)
  /\ (amount <= max_exact_sum)%Q
  /\ ((total = 0%nat /\ average_transaction total amount = 0%Q
       /\ jumlah_max (rows out) = None /\ jumlah_min (rows out) = None)
      \/ (exists mn mx,
            jumlah_min (rows out) = Some mn
            /\ jumlah_max (rows out) = Some mx
            /\ (exists r, In r (rows out) /\ jumlah r = Some mn)
            /\ (exists r, In r (rows out) /\ jumlah r = Some mx)
            /\ nonneg_integer (Some mn)
            /\ nonneg_integer (Some mx)
            /\ (mx <= max_exact_sum)%Q
            /\ (mn <= average_transaction total amount)%Q
            /\ (average_transaction total amount <= mx)%Q)).
Proof.
  intros Hc Ho Hint Hsum.
  apply count_transactions_Ok_inv in Hc.
  destruct Hc as (df & rest & -> & _ & _ & -> & -> & _).
  apply get_transaction_dataframe_Ok_inv in Ho.
  destruct Ho as (df' & rest' & E & _ & _ & ->).
  inversion E; subst df' rest'. simpl.
  assert (Hint' : forall r, In r (rows df) -> jumlah r <> None ->
                            nonneg_integer (jumlah r))
    by (intros r Hr; apply (Hint df r (or_introl eq_refl) Hr)).
  destruct (transaction_rows_sum_le df vendor Hint') as [Hwhole Hle0].
  assert (Hbound : (sum_jumlah (transaction_rows df vendor) <= max_exact_sum)%Q)
    by (eapply Qle_trans; [exact Hle0|apply Hsum; left; reflexivity]).
  split; [exact Hwhole|]. split; [exact Hbound|].
  assert (Hn : forall r, In r (transaction_rows df vendor) -> jumlah r <> None)
    by (intros r Hr; apply (proj1 (transaction_rows_In df vendor r) Hr)).
  assert (Hw : forall r q, In r (transaction_rows df vendor) ->
                           jumlah r = Some q -> nonneg_integer (Some q)).
  { intros r q Hr Eq. rewrite <- Eq. apply Hint'.
    - apply (transaction_rows_incl df vendor), Hr.
    - rewrite Eq. discriminate. }
  assert (Hpos0 : forall r q, In r (transaction_rows df vendor) ->
                              jumlah r = Some q -> (0 <= q)%Q)
    by (intros r q Hr Eq; apply nonneg_integer_nonneg, (Hw r q Hr Eq)).
  assert (Hle1 : forall r q, In r (transaction_rows df vendor) ->
                             jumlah r = Some q -> (q <= max_exact_sum)%Q).
  { intros r q Hr Eq. eapply Qle_trans; [|exact Hbound].
    apply (jumlah_le_sum _ r q Hpos0 Hr Eq). }
  clear Hle0 Hwhole Hbound.
  destruct (transaction_rows df vendor) as [|x l] eqn:El.
  - left. repeat split; reflexivity.
  - right.
    destruct (jumlah x) as [qx|] eqn:Ex;
      [|exfalso; apply (Hn x); [left; reflexivity|exact Ex]].
    destruct (jumlah_min_fold l qx) as (mn & Hfm & Hm0 & Hmall).
    destruct (jumlah_max_fold l qx) as (mx & Hfx & Hx0 & Hxall).
    assert (Hmin : exists r, In r (x :: l) /\ jumlah r = Some mn).
    { destruct (jumlah_min_fold_In l qx mn Hfm) as [->|(r & Hr & Er)];
        [exists x; split; [left; reflexivity|exact Ex]
        |exists r; split; [right; exact Hr|exact Er]]. }
    assert (Hmax : exists r, In r (x :: l) /\ jumlah r = Some mx).
    { destruct (jumlah_max_fold_In l qx mx Hfx) as [->|(r & Hr & Er)];
        [exists x; split; [left; reflexivity|exact Ex]
        |exists r; split; [right; exact Hr|exact Er]]. }
    exists mn, mx.
    split; [unfold jumlah_min; simpl; rewrite Ex; exact Hfm|].
    split; [unfold jumlah_max; simpl; rewrite Ex; exact Hfx|].
    split; [exact Hmin|]. split; [exact Hmax|].
    split; [destruct Hmin as (r & Hr & Er); exact (Hw r mn Hr Er)|].
    split; [destruct Hmax as (r & Hr & Er); exact (Hw r mx Hr Er)|].
    split; [destruct Hmax as (r & Hr & Er); exact (Hle1 r mx Hr Er)|].
    assert (Hmn : forall r q, In r (x :: l) -> jumlah r = Some q -> (mn <= q)%Q).
    { intros r q [<-|Hr] Eq;
        [rewrite Ex in Eq; inversion Eq; subst; exact Hm0|eauto]. }
    assert (Hmx : forall r q, In r (x :: l) -> jumlah r = Some q -> (q <= mx)%Q).
    { intros r q [<-|Hr] Eq;
        [rewrite Ex in Eq; inversion Eq; subst; exact Hx0|eauto]. }
    pose proof (sum_jumlah_le_max (x :: l) mx Hn Hmx) as Hle.
    pose proof (sum_jumlah_ge_min (x :: l) mn Hn Hmn) as Hge.
    unfold average_transaction.
    change (Nat.ltb 0 (List.length (x :: l))) with true. cbv iota.
    set (n := inject_Z (Z.of_nat (List.length (x :: l)))) in *.
    assert (Hpos : (0 < n)%Q).
    { unfold n. change 0%Q with (inject_Z 0). rewrite <- Zlt_Qlt.
      change (List.length (x :: l)) with (S (List.length l)). lia. }
    split.
    + apply Qle_shift_div_l; [exact Hpos|]. lra.
    + apply Qle_shift_div_r; [exact Hpos|]. lra.
Qed.

Lemma average_between_min_and_max_witness :
  nonneg_integer (Some (0 + 60000 + 50000 + 200000)%Q)
  /\ (0 + 60000 + 50000 + 200000 <= max_exact_sum)%Q
  /\ ((3%nat = 0%nat
       /\ average_transaction 3 (0 + 60000 + 50000 + 200000) = 0%Q
       /\ jumlah_max (rows two_po_sheet) = None
       /\ jumlah_min (rows two_po_sheet) = None)
      \/ (exists mn mx,
            jumlah_min (rows two_po_sheet) = Some mn
            /\ jumlah_max (rows two_po_sheet) = Some mx
            /\ (exists r, In r (rows two_po_sheet) /\ jumlah r = Some mn)
            /\ (exists r, In r (rows two_po_sheet) /\ jumlah r = Some mx)
            /\ nonneg_integer (Some mn)
            /\ nonneg_integer (Some mx)
            /\ (mx <= max_exact_sum)%Q
            /\ (mn <= average_transaction 3 (0 + 60000 + 50000 + 200000))%Q
            /\ (average_transaction 3 (0 + 60000 + 50000 + 200000) <= mx)%Q)).
Proof.
  apply (average_between_min_and_max [two_po_sheet] None 3%nat
           (0 + 60000 + 50000 + 200000)%Q [2; 1; 0; 0; 0; 0; 0]%nat
           (mkDF all_columns (rows two_po_sheet)));
    [reflexivity | reflexivity | |].
  - intros df r [<-|[]] Hr _. simpl in Hr.
    destruct Hr as [<-|[<-|[<-|[]]]].
    + exists 60000%Z. split; [lia|reflexivity].
    + exists 50000%Z. split; [lia|reflexivity].
    + exists 200000%Z. split; [lia|reflexivity].
  - intros df [<-|[]]. apply Qle_bool_imp_le. reflexivity.
Defined.

(** ** Each breakdown row is its PO *)

Lemma string_compare_lt_neq (k k' : string) : String.compare k k' = Lt -> k <> k'.
Proof. intros H E. subst. rewrite string_compare_refl in H. discriminate. Qed.







(** ** The vendor filter at PO level *)

Lemma po_filtered_rows_of_rows df rest vendor :
  has_column total_column df = true ->
  has_column po_code_column df = true ->
  (vendor_given vendor <> None -> has_column vendor_column df = true) ->
  po_filtered_rows (df :: rest) vendor
  = Ok (match vendor_given vendor with
        | Some v => filter_vendor v (filter_approved df (dropna_jumlah_po (rows df)))
        | None => filter_approved df (dropna_jumlah_po (rows df))
        end).
Proof.
  intros Ht Hp Hv. unfold po_filtered_rows. simpl. rewrite Ht, Hp. simpl.
  destruct (vendor_given vendor) as [v|]; [|reflexivity].
  rewrite Hv by discriminate. reflexivity.
Qed.

Lemma po_codes_incl l l' :
  (forall r, In r l -> In r l') -> incl (po_codes l) (po_codes l').
Proof.
  intros H k Hk. apply po_codes_In in Hk. destruct Hk as [r [Hr Ek]].
  apply po_codes_In. exists r. split; [apply H, Hr|exact Ek].
Qed.

(** Filtering by a vendor never raises the number of unique POs: when
    [count_unique_po_by_range] succeeds with a vendor, it succeeds
    without one, and [total_unique_po] with the vendor is at most
    [total_unique_po] without. *)
Theorem unique_po_vendor_filter_monotone file v total bins :
  count_unique_po_by_range file (Some v) = Ok (total, bins) ->
  exists total' bins',
    count_unique_po_by_range file None = Ok (total', bins')
    /\ (total <= total')%nat.
Proof.
  intro H.
  apply count_unique_po_by_range_Ok_inv in H. destruct H as (l & Hl & -> & _).
  unfold df_po_of at 1. rewrite length_map, groupby_po_code_length.
  apply po_filtered_rows_Ok_inv in Hl.
  destruct Hl as (df & rest & -> & Ht & Hp & -> & _).
  pose proof (po_filtered_rows_of_rows df rest None Ht Hp) as Hnone.
  rewrite vendor_given_None in Hnone.
  specialize (Hnone (fun C => False_ind _ (C eq_refl))).
  unfold count_unique_po_by_range. rewrite Hnone. simpl.
  eexists _, _. split; [reflexivity|].
  unfold df_po_of. rewrite length_map, groupby_po_code_length.
  apply NoDup_incl_length; [apply NoDup_nodup|].
  apply po_codes_incl. intros r Hr. simpl in Hr.
  destruct (vendor_given (Some v)); [apply filter_vendor_incl in Hr|]; exact Hr.
Qed.

Lemma unique_po_vendor_filter_monotone_witness :
  exists total' bins',
    count_unique_po_by_range [two_po_sheet] None = Ok (total', bins')
    /\ (2 <= total')%nat.
Proof.
  apply (unique_po_vendor_filter_monotone [two_po_sheet] "X" 2%nat
           [0; 2; 0; 0; 0; 0; 0]%nat).
  reflexivity.
Defined.

(** ** Row order *)

Lemma filter_approved_Permutation df df' l l' :
  columns df' = columns df -> Permutation l l' ->
  Permutation (filter_approved df l) (filter_approved df' l').
Proof.
  intros Hc Hp. unfold filter_approved.
  rewrite (has_column_same_columns status_column df df' Hc).
  destruct (has_column status_column df); [apply Permutation_filter|]; exact Hp.
Qed.

Lemma transaction_rows_Permutation df df' vendor :
  columns df' = columns df -> Permutation (rows df) (rows df') ->
  Permutation (transaction_rows df vendor) (transaction_rows df' vendor).
Proof.
  intros Hc Hp. unfold transaction_rows.
  assert (H : Permutation (filter_approved df (dropna_jumlah (rows df)))
                          (filter_approved df' (dropna_jumlah (rows df')))).
  { apply filter_approved_Permutation; [exact Hc|].
    unfold dropna_jumlah. apply Permutation_filter, Hp. }
  destruct (vendor_given vendor); [apply Permutation_filter|]; exact H.
Qed.

Lemma range_counts_Permutation {A : Type} (value : A -> option Q) (l l' : list A) :
  Permutation l l' -> range_counts value l = range_counts value l'.
Proof.
  intro Hp. unfold range_counts, count_where.
  f_equal.
  - apply map_ext. intro mm.
    apply Permutation_length, Permutation_filter, Hp.
  - f_equal. apply Permutation_length, Permutation_filter, Hp.
Qed.

(** The order of the rows of the sheet does not matter to
    [count_transactions]: on a sheet with the same columns and the same
    rows in another order it returns the same total, the same seven
    counts and an equal amount. *)
Theorem count_transactions_row_order df df' rest rest' vendor total amount bins :
  columns df' = columns df ->
  Permutation (rows df) (rows df') ->
  count_transactions (df :: rest) vendor = Ok (total, amount, bins) ->
  exists amount',
    count_transactions (df' :: rest') vendor = Ok (total, amount', bins)
    /\ (amount' == amount)%Q.
Proof.
  intros Hc Hp H.
  pose proof (count_transactions_Ok_nonempty df rest vendor _ H) as Hne.
  apply count_transactions_Ok_inv in H.
  destruct H as (df0 & rest0 & E & Ht & Hv & -> & -> & ->).
  inversion E; subst df0 rest0.
  pose proof (transaction_rows_Permutation df df' vendor Hc Hp) as Hperm.
  exists (sum_jumlah (transaction_rows df' vendor)). split.
  - rewrite (count_transactions_of_rows df' rest' vendor).
    + rewrite (Permutation_length Hperm), (range_counts_Permutation _ _ _ Hperm).
      reflexivity.
    + rewrite (has_column_same_columns _ df df' Hc). exact Ht.
    + rewrite (has_column_same_columns _ df df' Hc). exact Hv.
    + intros Hg Hnil. apply (Hne Hg).
      apply Permutation_sym in Hperm. rewrite Hnil in Hperm.
      apply Permutation_nil in Hperm. exact Hperm.
  - apply sum_jumlah_Permutation, Permutation_sym, Hperm.
Qed.

Lemma count_transactions_row_order_witness :
  exists amount',
    count_transactions [tie_sheet_swapped] None
    = Ok (2%nat, amount', [2; 0; 0; 0; 0; 0; 0]%nat)
    /\ (amount' == 0 + 100 + 100)%Q.
Proof.
  apply (count_transactions_row_order tie_sheet tie_sheet_swapped [] [] None).
  - reflexivity.
  - apply perm_swap.
  - reflexivity.
Defined.
